(** * Cross-pane scroll synchronisation of the collapsible tab container

    A shallow embedding of [src/Container.tsx]: the shared values the
    container creates, the reactions that run on them, the tab-press and
    imperative commands, and the header translation.

    Conventions of the embedding.
    - A JavaScript number is [number]: an integer [Num z] or [NaN].  Scroll
      offsets and heights are taken in whole pixels, so the arithmetic of the
      source ([+], [-], [Math.min], [Math.max], [<], [>]) is exact; [NaN]
      is kept because the source can produce it (an array read out of range
      yields [undefined], and [undefined] in a subtraction is [NaN]).  The
      statements below keep to the expressions of the source and to facts
      of order; none rests on re-associating sums of offsets.
    - [undefined] is [None]; a tab name is a [string].
    - A shared value is a field of [State]; a reaction
      ([useAnimatedReaction]) is a function on [State] that the scheduler
      runs after a write to a value its first closure reads.
    - Calls that leave the container ([runOnJS(onIndexChange)], [scrollTo],
      [scrollToOffset], [scrollToIndex]) are appended to two logs kept in the
      state, in the order in which they are issued; what React Native does
      with them is not part of the container.
    - A shared value created with [useSharedValue(init)] is built anew at
      a render at which [init] has changed; one created with
      [useSharedValue(init, false)] ([scrollY], [pagerOpacity]) never is.
      This is what makes [tabNames] follow the tab set, and it applies to
      [index], [scrollX] and [calculateNextOffset] as well.
    - The values that only drive layout, fading and snapping
      ([containerHeight], [tabBarHeight], [pagerOpacity], [afterRender],
      [isSnapping], [snappingTo], [endDrag], [contentHeight]) are left
      out. *)

From stdpp Require Import base numbers list strings gmap.

Local Open Scope Z_scope.

(** ** JavaScript values used by the container *)

Module JS.

Inductive number : Type :=
| Num (z : Z)
| NaN.

#[global] Instance number_eq_dec : EqDecision number.
Proof. solve_decision. Defined.

(** [ToNumber] of an array element: [undefined] becomes [NaN]. *)
Definition ToNumber (v : option number) : number :=
  match v with
  | Some n => n
  | None => NaN
  end.

Definition add (a b : number) : number :=
  match a, b with
  | Num x, Num y => Num (x + y)
  | _, _ => NaN
  end.

Definition sub (a b : number) : number :=
  match a, b with
  | Num x, Num y => Num (x - y)
  | _, _ => NaN
  end.

Definition neg (a : number) : number :=
  match a with
  | Num x => Num (- x)
  | NaN => NaN
  end.

(** [Math.min] and [Math.max]: [NaN] as soon as one argument is. *)
Definition min (a b : number) : number :=
  match a, b with
  | Num x, Num y => Num (Z.min x y)
  | _, _ => NaN
  end.

Definition max (a b : number) : number :=
  match a, b with
  | Num x, Num y => Num (Z.max x y)
  | _, _ => NaN
  end.

(** [a > 0] and [a < 0]; every comparison with [NaN] is false. *)
Definition gt0 (a : number) : bool :=
  match a with
  | Num x => bool_decide (0 < x)
  | NaN => false
  end.

Definition lt0 (a : number) : bool :=
  match a with
  | Num x => bool_decide (x < 0)
  | NaN => false
  end.

(** Truthiness of a number: [0] and [NaN] are falsy. *)
Definition truthy (a : number) : bool :=
  match a with
  | Num x => bool_decide (x ≠ 0)
  | NaN => false
  end.

(** Truthiness of an optional string: [undefined] and [''] are falsy. *)
Definition truthy_str (s : option string) : bool :=
  match s with
  | Some n => bool_decide (n ≠ EmptyString)
  | None => false
  end.

(** [a[i]]: [undefined] outside [0 .. length-1], also for negative [i]. *)
Definition at_ {A : Type} (a : list A) (i : Z) : option A :=
  if bool_decide (i < 0) then None else a !! Z.to_nat i.

(** [a.findIndex(p)]: the first position whose element satisfies [p],
    [-1] when there is none. *)
Fixpoint findIndex_from {A : Type} (p : A → bool) (a : list A) (k : Z) : Z :=
  match a with
  | [] => -1
  | x :: r => if p x then k else findIndex_from p r (k + 1)
  end.

Definition findIndex {A : Type} (p : A → bool) (a : list A) : Z :=
  findIndex_from p a 0.

(** [n === name] for a tab name [n] and a possibly undefined [name]. *)
Definition same_name (name : option string) (n : string) : bool :=
  bool_decide (Some n = name).

(** [Math.round(x / w)] for a positive [w]: the nearest integer, halves
    going up. *)
Definition round_div (x : Z) (w : positive) : Z :=
  (2 * x + Z.pos w) `div` (2 * Z.pos w).

End JS.

Import JS.

(** ** What the container is given and what it keeps *)

(** One child of the container, as [React.Children] sees it: an element
    (valid for [React.isValidElement]) or anything else ([null], a string,
    a number, a boolean). *)
Inductive Child : Type :=
| Element
| NotElement.

#[global] Instance Child_eq_dec : EqDecision Child.
Proof. solve_decision. Defined.

Record Props : Type := mkProps {
  initialTabName : option string;
  initialHeaderHeight : option Z;
  minHeaderHeight : Z;
  diffClampEnabled : bool;
  children : list Child;
  (** whether an [onIndexChange] callback was passed *)
  onIndexChange : bool;
}.

(** The payload handed to [onIndexChange]. *)
Module IndexChange.
Record t : Type := mk {
  prevIndex : Z;
  index : Z;
  prevTabName : option string;
  tabName : option string;
}.
End IndexChange.

(** What a registered pane ref offers. *)
Inductive RefKind : Type :=
| HasScrollTo
| HasScrollToOffset
| NoScrollMethod.

(** Calls issued to the pane refs and to the pager ([containerRef]). *)
Inductive Command : Type :=
| ScrollTo (name : string)
| ScrollToOffset (name : string)
| ScrollToIndex (index : Z) (animated : bool).

Record State : Type := mkState {
  headerHeight : option Z;
  isScrolling : number;
  scrollYCurrent : number;
  scrollY : list number;
  offset : number;
  accScrollY : number;
  oldAccScrollY : number;
  accDiffClamp : number;
  tabNames : list string;
  index : Z;
  scrollX : Z;
  isSwiping : bool;
  isGliding : bool;
  calculateNextOffset : Z;
  firstRender : bool;
  windowWidth : positive;
  (** the initialisers that the last render passed to [useSharedValue]
      for [scrollX] and for [calculateNextOffset] *)
  scrollXInit : Z;
  calculateNextOffsetInit : Z;
  (** pane refs by tab name *)
  refMap : gmap string RefKind;
  (** calls of [onIndexChange] and of the scroll methods, oldest first *)
  notifications : list IndexChange.t;
  commands : list Command;
}.

Definition set_calculateNextOffset (i : Z) (s : State) : State :=
  mkState (headerHeight s) (isScrolling s) (scrollYCurrent s) (scrollY s)
    (offset s) (accScrollY s) (oldAccScrollY s) (accDiffClamp s)
    (tabNames s) (index s) (scrollX s) (isSwiping s) (isGliding s)
    i (firstRender s) (windowWidth s)
    (scrollXInit s) (calculateNextOffsetInit s) (refMap s)
    (notifications s) (commands s).

Definition set_offset (v : number) (s : State) : State :=
  mkState (headerHeight s) (isScrolling s) (scrollYCurrent s) (scrollY s)
    v (accScrollY s) (oldAccScrollY s) (accDiffClamp s)
    (tabNames s) (index s) (scrollX s) (isSwiping s) (isGliding s)
    (calculateNextOffset s) (firstRender s) (windowWidth s)
    (scrollXInit s) (calculateNextOffsetInit s) (refMap s)
    (notifications s) (commands s).

Definition set_index (i : Z) (s : State) : State :=
  mkState (headerHeight s) (isScrolling s) (scrollYCurrent s) (scrollY s)
    (offset s) (accScrollY s) (oldAccScrollY s) (accDiffClamp s)
    (tabNames s) i (scrollX s) (isSwiping s) (isGliding s)
    (calculateNextOffset s) (firstRender s) (windowWidth s)
    (scrollXInit s) (calculateNextOffsetInit s) (refMap s)
    (notifications s) (commands s).

Definition set_accDiffClamp (v : number) (s : State) : State :=
  mkState (headerHeight s) (isScrolling s) (scrollYCurrent s) (scrollY s)
    (offset s) (accScrollY s) (oldAccScrollY s) v
    (tabNames s) (index s) (scrollX s) (isSwiping s) (isGliding s)
    (calculateNextOffset s) (firstRender s) (windowWidth s)
    (scrollXInit s) (calculateNextOffsetInit s) (refMap s)
    (notifications s) (commands s).

Definition set_scrollX (x : Z) (s : State) : State :=
  mkState (headerHeight s) (isScrolling s) (scrollYCurrent s) (scrollY s)
    (offset s) (accScrollY s) (oldAccScrollY s) (accDiffClamp s)
    (tabNames s) (index s) x (isSwiping s) (isGliding s)
    (calculateNextOffset s) (firstRender s) (windowWidth s)
    (scrollXInit s) (calculateNextOffsetInit s) (refMap s)
    (notifications s) (commands s).

Definition set_isSwiping (b : bool) (s : State) : State :=
  mkState (headerHeight s) (isScrolling s) (scrollYCurrent s) (scrollY s)
    (offset s) (accScrollY s) (oldAccScrollY s) (accDiffClamp s)
    (tabNames s) (index s) (scrollX s) b (isGliding s)
    (calculateNextOffset s) (firstRender s) (windowWidth s)
    (scrollXInit s) (calculateNextOffsetInit s) (refMap s)
    (notifications s) (commands s).

Definition set_headerHeight (h : option Z) (s : State) : State :=
  mkState h (isScrolling s) (scrollYCurrent s) (scrollY s)
    (offset s) (accScrollY s) (oldAccScrollY s) (accDiffClamp s)
    (tabNames s) (index s) (scrollX s) (isSwiping s) (isGliding s)
    (calculateNextOffset s) (firstRender s) (windowWidth s)
    (scrollXInit s) (calculateNextOffsetInit s) (refMap s)
    (notifications s) (commands s).

Definition set_tabNames (names : list string) (s : State) : State :=
  mkState (headerHeight s) (isScrolling s) (scrollYCurrent s) (scrollY s)
    (offset s) (accScrollY s) (oldAccScrollY s) (accDiffClamp s)
    names (index s) (scrollX s) (isSwiping s) (isGliding s)
    (calculateNextOffset s) (firstRender s) (windowWidth s)
    (scrollXInit s) (calculateNextOffsetInit s) (refMap s)
    (notifications s) (commands s).

Definition set_firstRender (b : bool) (s : State) : State :=
  mkState (headerHeight s) (isScrolling s) (scrollYCurrent s) (scrollY s)
    (offset s) (accScrollY s) (oldAccScrollY s) (accDiffClamp s)
    (tabNames s) (index s) (scrollX s) (isSwiping s) (isGliding s)
    (calculateNextOffset s) b (windowWidth s)
    (scrollXInit s) (calculateNextOffsetInit s) (refMap s)
    (notifications s) (commands s).

Definition notify (e : IndexChange.t) (s : State) : State :=
  mkState (headerHeight s) (isScrolling s) (scrollYCurrent s) (scrollY s)
    (offset s) (accScrollY s) (oldAccScrollY s) (accDiffClamp s)
    (tabNames s) (index s) (scrollX s) (isSwiping s) (isGliding s)
    (calculateNextOffset s) (firstRender s) (windowWidth s)
    (scrollXInit s) (calculateNextOffsetInit s) (refMap s)
    (notifications s ++ [e]) (commands s).

Definition issue (c : Command) (s : State) : State :=
  mkState (headerHeight s) (isScrolling s) (scrollYCurrent s) (scrollY s)
    (offset s) (accScrollY s) (oldAccScrollY s) (accDiffClamp s)
    (tabNames s) (index s) (scrollX s) (isSwiping s) (isGliding s)
    (calculateNextOffset s) (firstRender s) (windowWidth s)
    (scrollXInit s) (calculateNextOffsetInit s) (refMap s)
    (notifications s) (commands s ++ [c]).

Definition set_windowWidth (w : positive) (s : State) : State :=
  mkState (headerHeight s) (isScrolling s) (scrollYCurrent s) (scrollY s)
    (offset s) (accScrollY s) (oldAccScrollY s) (accDiffClamp s)
    (tabNames s) (index s) (scrollX s) (isSwiping s) (isGliding s)
    (calculateNextOffset s) (firstRender s) w
    (scrollXInit s) (calculateNextOffsetInit s) (refMap s)
    (notifications s) (commands s).

Definition set_refMap (m : gmap string RefKind) (s : State) : State :=
  mkState (headerHeight s) (isScrolling s) (scrollYCurrent s) (scrollY s)
    (offset s) (accScrollY s) (oldAccScrollY s) (accDiffClamp s)
    (tabNames s) (index s) (scrollX s) (isSwiping s) (isGliding s)
    (calculateNextOffset s) (firstRender s) (windowWidth s)
    (scrollXInit s) (calculateNextOffsetInit s) m
    (notifications s) (commands s).

(** The values the container hands to the panes through its context
    ([scrollYCurrent], [scrollY], [_accScrollY], [_oldAccScrollY],
    [_isScrolling], [_isGliding]).  The pane scroll handlers that write
    them are not part of [Container.tsx]; one write of theirs is a
    [PaneValues] record with the new contents. *)
Record PaneValues : Type := mkPaneValues {
  pv_isScrolling : number;
  pv_isGliding : bool;
  pv_scrollYCurrent : number;
  pv_scrollY : list number;
  pv_accScrollY : number;
  pv_oldAccScrollY : number;
}.

Definition set_paneValues (v : PaneValues) (s : State) : State :=
  mkState (headerHeight s) (pv_isScrolling v) (pv_scrollYCurrent v)
    (pv_scrollY v) (offset s) (pv_accScrollY v) (pv_oldAccScrollY v)
    (accDiffClamp s) (tabNames s) (index s) (scrollX s) (isSwiping s)
    (pv_isGliding v) (calculateNextOffset s) (firstRender s)
    (windowWidth s)
    (scrollXInit s) (calculateNextOffsetInit s) (refMap s) (notifications s) (commands s).

(** The two accumulators the diff-clamp reaction reads. *)
Definition set_accScrollY (old new : number) (s : State) : State :=
  mkState (headerHeight s) (isScrolling s) (scrollYCurrent s) (scrollY s)
    (offset s) new old (accDiffClamp s)
    (tabNames s) (index s) (scrollX s) (isSwiping s) (isGliding s)
    (calculateNextOffset s) (firstRender s) (windowWidth s)
    (scrollXInit s) (calculateNextOffsetInit s) (refMap s)
    (notifications s) (commands s).

(** The shared values alone: the state with both logs emptied. *)
Definition shared (s : State) : State :=
  mkState (headerHeight s) (isScrolling s) (scrollYCurrent s) (scrollY s)
    (offset s) (accScrollY s) (oldAccScrollY s) (accDiffClamp s)
    (tabNames s) (index s) (scrollX s) (isSwiping s) (isGliding s)
    (calculateNextOffset s) (firstRender s) (windowWidth s)
    (scrollXInit s) (calculateNextOffsetInit s) (refMap s)
    [] [].

(** ** Derived values *)

(** [focusedTab]: [tabNames.value[index.value]]. *)
Definition focusedTab (s : State) : option string :=
  at_ (tabNames s) (index s).

(** [headerScrollDistance]:
    [headerHeight !== undefined ? headerHeight - minHeaderHeight : 0]. *)
Definition headerScrollDistance (p : Props) (s : State) : Z :=
  match headerHeight s with
  | Some h => h - minHeaderHeight p
  | None => 0
  end.

(** [stylez]: the [translateY] of the header,
    [diffClampEnabled ? -accDiffClamp.value
       : -Math.min(scrollYCurrent.value, headerScrollDistance.value)]. *)
Definition translateY (p : Props) (s : State) : number :=
  if diffClampEnabled p
  then neg (accDiffClamp s)
  else neg (min (scrollYCurrent s) (Num (headerScrollDistance p s))).

(** ** Reactions *)

(** The reaction on the pager position: while swiping, the rounded
    [indexDecimal] becomes the pending target when it differs from
    [index]. *)
Definition swipeReaction (s : State) : State :=
  let nextIndex :=
    if isSwiping s then Some (round_div (scrollX s) (windowWidth s))
    else None in
  match nextIndex with
  | Some n =>
      if bool_decide (n ≠ index s) then set_calculateNextOffset n s else s
  | None => s
  end.

(** The reaction on [calculateNextOffset]: the commit of a pane switch. *)
Definition commitReaction (p : Props) (s : State) : State :=
  let i := calculateNextOffset s in
  if bool_decide (i ≠ index s) then
    let s1 :=
      set_offset
        (add (sub (ToNumber (at_ (scrollY s) (index s)))
                  (ToNumber (at_ (scrollY s) i)))
             (offset s)) s in
    let s2 :=
      if onIndexChange p then
        notify (IndexChange.mk (index s1) i
                  (at_ (tabNames s1) (index s1)) (at_ (tabNames s1) i)) s1
      else s1 in
    set_index i s2
  else s.

(** The reaction on [accScrollY]: the diff-clamp accumulator. *)
Definition diffClampReaction (p : Props) (s : State) : State :=
  let delta :=
    if diffClampEnabled p then sub (accScrollY s) (oldAccScrollY s)
    else Num 0 in
  if truthy delta then
    let nextValue := add (accDiffClamp s) delta in
    if gt0 delta then
      set_accDiffClamp (min (Num (headerScrollDistance p s)) nextValue) s
    else if lt0 delta then
      set_accDiffClamp (max (Num 0) nextValue) s
    else s
  else s.

(** ** Tab press and the imperative handle *)

(** The key under which [refMap[name]] looks a name up; an undefined name
    is the property ["undefined"]. *)
Definition refKey (name : option string) : string :=
  default "undefined"%string name.

(** [onTabPress(name)].  It runs after mount, when [containerRef.current]
    is set, so [scrollToIndex] is always issued in its last branch. *)
Definition onTabPress (name : option string) (s : State) : State :=
  if negb (truthy (isScrolling s)) && negb (isGliding s) then
    let i := findIndex (same_name name) (tabNames s) in
    let s1 := set_calculateNextOffset i s in
    if bool_decide (name = focusedTab s) then
      match refMap s !! refKey name with
      | Some HasScrollTo => issue (ScrollTo (refKey name)) s1
      | Some HasScrollToOffset => issue (ScrollToOffset (refKey name)) s1
      | _ => s1
      end
    else issue (ScrollToIndex i true) s1
  else s.

Definition setIndex (i : Z) (s : State) : bool * State :=
  if truthy (isScrolling s) || isGliding s then (false, s)
  else (true, onTabPress (at_ (tabNames s) i) s).

Definition jumpToTab (name : string) (s : State) : bool * State :=
  if truthy (isScrolling s) || isGliding s then (false, s)
  else (true, onTabPress (Some name) s).

Definition getFocusedTab (s : State) : option string :=
  at_ (tabNames s) (index s).

Definition getCurrentIndex (s : State) : Z :=
  index s.

(** ** Construction, effects and events *)

(** A computation that returns or throws an [Error] with a message. *)
Inductive Result (A : Type) : Type :=
| Ok (a : A)
| Throw (msg : string).

Arguments Ok {A} a.
Arguments Throw {A} msg.

Definition bind {A B : Type} (r : Result A) (k : A → Result B) : Result B :=
  match r with
  | Ok a => k a
  | Throw m => Throw m
  end.

Definition isValidElement (c : Child) : bool :=
  match c with
  | Element => true
  | NotElement => false
  end.

(** [React.Children.forEach] with the check of [init]: the first child that
    is not an element throws. *)
Fixpoint forEach_valid (children : list Child) : Result unit :=
  match children with
  | [] => Ok tt
  | c :: r =>
      if isValidElement c then forEach_valid r
      else Throw "CollapsibleTabs children must be array of React Elements."
  end.

(** [init(children)]; [children] is the list [React.Children] iterates
    over, so that [React.Children.count] is its length. *)
Definition init (children : list Child) : Result bool :=
  if bool_decide (length children = 0%nat)
  then Throw "CollapsibleTabs must have at least one child."
  else bind (forEach_valid children) (λ _, Ok true).

(** The effect on [windowWidth]. *)
Definition resizeEffect (s : State) : State :=
  if negb (firstRender s) then issue (ScrollToIndex (index s) false) s
  else s.

(** The effect that ends the first render. *)
Definition firstRenderEffect (p : Props) (s : State) : State :=
  if firstRender s then
    set_firstRender false
      (if bool_decide (initialTabName p ≠ None) && bool_decide (index s ≠ 0)
       then issue (ScrollToIndex (index s) false) s
       else s)
  else s.

(** The effect that recovers from an index beyond the tab set. *)
Definition recoveryEffect (tabNamesArray : list string) (s : State) : State :=
  if bool_decide (Z.of_nat (length tabNamesArray) ≤ index s) then
    onTabPress (at_ tabNamesArray (Z.of_nat (length tabNamesArray) - 1)) s
  else s.

(** The first render and its effects.  [tabNamesArray] is what the hook
    [useTabProps] returns for the children and [width] what
    [useWindowDimensions] returns; both hooks live outside [Container.tsx]
    and their results are parameters here. *)
Definition Container (p : Props) (tabNamesArray : list string)
    (width : positive) : Result State :=
  bind (init (children p)) (λ first,
    let index0 :=
      if truthy_str (initialTabName p)
      then findIndex (same_name (initialTabName p)) tabNamesArray
      else 0 in
    let s0 :=
      mkState (initialHeaderHeight p) (Num 0) (Num 0)
        ((λ _, Num 0) <$> tabNamesArray) (Num 0) (Num 0) (Num 0) (Num 0)
        tabNamesArray index0 (index0 * Z.pos width) false false
        index0 first width (index0 * Z.pos width) index0 ∅ [] [] in
    Ok (commitReaction p
          (recoveryEffect tabNamesArray
             (firstRenderEffect p (resizeEffect s0))))).

(** [getHeaderHeight]: the layout callback of the header. *)
Definition getHeaderHeight (height : Z) (s : State) : State :=
  if bool_decide (headerHeight s ≠ Some height)
  then set_headerHeight (Some height) s
  else s.

(** What can happen to a mounted container. *)
Inductive Event : Type :=
| PagerScroll (x : Z)
| PagerBeginDrag
| PagerMomentumEnd
| TabPress (name : string)
| CallSetIndex (i : Z)
| CallJumpToTab (name : string)
| HeaderLayout (height : Z)
| PaneWrite (v : PaneValues)
| SetRef (name : string) (k : RefKind)
| Resize (width : positive)
| Rerender (children : list Child) (tabNamesArray : list string).

(** The reactions that follow a write to the pager position or to
    [isSwiping], in the order in which they are declared. *)
Definition settle (p : Props) (s : State) : State :=
  commitReaction p (swipeReaction s).

(** The initial value of [index]:
    [initialTabName ? tabNames.value.findIndex(n => n === initialTabName) : 0]. *)
Definition initialIndex (p : Props) (tabNamesArray : list string) : Z :=
  if truthy_str (initialTabName p)
  then findIndex (same_name (initialTabName p)) tabNamesArray
  else 0.

(** [useSharedValue(init)] at a later render.  A shared value created
    without the second argument [false] is built anew from [init] when
    [init] differs from the initialiser of the render before: [tabNames]
    from the tab names, [index] from the expression of its first render,
    [scrollX] from [index.value * windowWidth] and [calculateNextOffset]
    from [index.value]; the initialisers of all the others are constants.
    The initialiser that [index] had at the render before is the one its
    expression gives for the tab names of that render. *)
Definition rebuild (p : Props) (tabNamesArray : list string)
    (width : positive) (s : State) : State :=
  let index' :=
    if bool_decide (initialIndex p tabNamesArray
                    ≠ initialIndex p (tabNames s))
    then initialIndex p tabNamesArray
    else index s in
  let scrollXInit' := index' * Z.pos width in
  let scrollX' :=
    if bool_decide (scrollXInit' ≠ scrollXInit s) then scrollXInit'
    else scrollX s in
  let calculateNextOffset' :=
    if bool_decide (index' ≠ calculateNextOffsetInit s) then index'
    else calculateNextOffset s in
  mkState (headerHeight s) (isScrolling s) (scrollYCurrent s) (scrollY s)
    (offset s) (accScrollY s) (oldAccScrollY s) (accDiffClamp s)
    tabNamesArray index' scrollX' (isSwiping s) (isGliding s)
    calculateNextOffset' (firstRender s) width scrollXInit' index'
    (refMap s) (notifications s) (commands s).

(** A render after the first one, for the tab names and the window width
    it finds: the shared values are rebuilt, then the effects run whose
    dependencies changed (those on [windowWidth]; the recovery, which
    depends on the tab names and on [index.value], whose value at the
    render before is the initialiser kept for [calculateNextOffset]),
    then the reactions (the one on the pager position when [scrollX] or
    the width changed).  [newTabs] tells that [useTabProps] returned a new
    array of names. *)
Definition render (p : Props) (tabNamesArray : list string)
    (width : positive) (newTabs : bool) (s : State) : State :=
  let s1 := rebuild p tabNamesArray width s in
  let s2 :=
    if bool_decide (width ≠ windowWidth s)
    then firstRenderEffect p (resizeEffect s1)
    else s1 in
  let s3 :=
    if newTabs || bool_decide (index s1 ≠ calculateNextOffsetInit s)
    then recoveryEffect tabNamesArray s2
    else s2 in
  let s4 :=
    if bool_decide (scrollX s1 ≠ scrollX s)
       || bool_decide (width ≠ windowWidth s)
    then swipeReaction s3
    else s3 in
  commitReaction p s4.

(** One event.  A step ends with the commit reaction; a changed header
    height, a changed window width and new children make the container
    render again. *)
Definition step (p : Props) (s : State) (e : Event) : Result State :=
  match e with
  | PagerScroll x => Ok (settle p (set_scrollX x s))
  | PagerBeginDrag => Ok (settle p (set_isSwiping true s))
  | PagerMomentumEnd => Ok (settle p (set_isSwiping false s))
  | TabPress name => Ok (commitReaction p (onTabPress (Some name) s))
  | CallSetIndex i => Ok (commitReaction p (setIndex i s).2)
  | CallJumpToTab name => Ok (commitReaction p (jumpToTab name s).2)
  | HeaderLayout height =>
      Ok (if bool_decide (headerHeight s ≠ Some height)
          then render p (tabNames s) (windowWidth s) false
                 (getHeaderHeight height s)
          else s)
  | PaneWrite v => Ok (diffClampReaction p (set_paneValues v s))
  | SetRef name k => Ok (set_refMap (<[name := k]> (refMap s)) s)
  | Resize width => Ok (render p (tabNames s) width false s)
  | Rerender children tabNamesArray =>
      bind (init children) (λ _,
        Ok (render p tabNamesArray (windowWidth s) true s))
  end.

Fixpoint run (p : Props) (s : State) (es : list Event) : Result State :=
  match es with
  | [] => Ok s
  | e :: r => bind (step p s e) (λ s', run p s' r)
  end.

(** A sequence of writes to the two scroll accumulators, each followed by
    the diff-clamp reaction. *)
Fixpoint scrollUpdates (p : Props) (s : State)
    (ws : list (number * number)) : State :=
  match ws with
  | [] => s
  | (old, new) :: r =>
      scrollUpdates p (diffClampReaction p (set_accScrollY old new s)) r
  end.

(** ** Events whose targets exist *)

(** [i] is an ordinal of the current tab set. *)
Definition in_range (s : State) (i : Z) : Prop :=
  0 ≤ i < Z.of_nat (length (tabNames s)).




(** The scroll-to-top call a pane ref of kind [k] receives. *)
Definition scrollToTop (k : RefKind) (name : string) : list Command :=
  match k with
  | HasScrollTo => [ScrollTo name]
  | HasScrollToOffset => [ScrollToOffset name]
  | NoScrollMethod => []
  end.

(** ** Sample containers *)

Definition sampleProps : Props :=
  mkProps None (Some 150) 50 false [Element; Element] true.

Definition diffClampProps : Props :=
  mkProps None (Some 150) 50 true [Element; Element] true.

(** A header of height 50 that is asked to keep 100 visible. *)
Definition narrowHeaderProps : Props :=
  mkProps None (Some 50) 100 false [Element] true.

(** No header height given: the scroll distance is 0, direct mode. *)
Definition noHeaderProps : Props :=
  mkProps None None 0 false [Element] true.

(** The pane reports an offset of -30 (pulled down beyond its top). *)
Definition overscrolled : PaneValues :=
  mkPaneValues (Num 1) false (Num (-30)) [Num (-30)] (Num (-30)) (Num 0).

(** The second of two tabs is the initial one. *)
Definition strayTabProps : Props :=
  mkProps (Some "B"%string) (Some 150) 50 false [Element; Element] true.

(** An initial tab name that no pane carries. *)
Definition strayNameProps : Props :=
  mkProps (Some "Z"%string) (Some 150) 50 false [Element; Element] true.

(** Three panes of width 300: a swipe from A past the midpoint towards B,
    then jumps and presses, then the tab set shrinks to one pane. *)
Definition sampleEvents : list Event :=
  [PagerBeginDrag; PagerScroll 310; PagerMomentumEnd;
   CallJumpToTab "C"; TabPress "A"; CallSetIndex 2;
   Rerender [Element] ["A"%string]].

Definition sampleState : State :=
  mkState (Some 150) (Num 0) (Num 120) [Num 120; Num 40] (Num 0)
    (Num 120) (Num 120) (Num 0) ["A"; "B"]%string 0 0 false false 0
    false 300%positive 0 0 ∅ [] [].

(** [sampleState] while a pane glides after a vertical fling. *)
Definition glidingState : State :=
  set_paneValues
    (mkPaneValues (Num 0) true (Num 120) [Num 120; Num 40] (Num 120) (Num 120))
    sampleState.

(** [sampleState] with both panes registered as scroll views. *)
Definition mountedState : State :=
  set_refMap {[ "A"%string := HasScrollTo; "B"%string := HasScrollToOffset ]}
    sampleState.

(** ** The rest of the container *)

(** What [getItemLayout] returns for a page of the pager. *)
Module ItemLayout.
Record t : Type := mk {
  length : Z;
  offset : Z;
  index : Z;
}.
End ItemLayout.

(** [getItemLayout(_, index)]:
    [{ length: windowWidth, offset: windowWidth * index, index }]. *)
Definition getItemLayout (s : State) (i : Z) : ItemLayout.t :=
  ItemLayout.mk (Z.pos (windowWidth s)) (Z.pos (windowWidth s) * i) i.

(** The opacities 0 and 1 of the pager; an opacity is a rational. *)
Definition opacity0 : Qcanon.Qc := Qcanon.Q2Qc (QArith_base.Qmake 0 1).

Definition opacity1 : Qcanon.Qc := Qcanon.Q2Qc (QArith_base.Qmake 1 1).

(** The initial value of [pagerOpacity]:
    [initialHeaderHeight === undefined || index.value !== 0 ? 0 : 1]. *)
Definition initialPagerOpacity (p : Props) (index0 : Z) : Qcanon.Qc :=
  if bool_decide (initialHeaderHeight p = None) || bool_decide (index0 ≠ 0)
  then opacity0
  else opacity1.

(** What the reaction that fades the pager in computes: whether
    [pagerOpacity] is to be animated to 1. *)
Definition fadeInPager (p : Props) (headerHeight : option Z)
    (pagerOpacity : Qcanon.Qc) : bool :=
  (bool_decide (initialHeaderHeight p = None)
   || bool_decide (initialTabName p ≠ None))
  && bool_decide (headerHeight ≠ None)
  && bool_decide (pagerOpacity = opacity0).

(** The pager position [x] is less than half a page away from page [n],
    the lower end included. *)
Definition nearest_page (s : State) (x n : Z) : Prop :=
  2 * n * Z.pos (windowWidth s) - Z.pos (windowWidth s) ≤ 2 * x
  ∧ 2 * x < 2 * n * Z.pos (windowWidth s) + Z.pos (windowWidth s).

(** No pane scrolls or glides: tab presses and commands are accepted. *)
Definition idle (s : State) : Prop :=
  truthy (isScrolling s) = false ∧ isGliding s = false.

(** [s1] agrees with [s] on the offset, the diff-clamp accumulator and
    the callback log. *)
Definition same_core (s1 s : State) : Prop :=
  offset s1 = offset s ∧
  accDiffClamp s1 = accDiffClamp s ∧
  notifications s1 = notifications s.

(** [sampleState] at its second pane, while the first pane still glides. *)
Definition glidingAtSecond : State :=
  set_index 1 (set_calculateNextOffset 1 glidingState).

(** [sampleState] while the pager is dragged. *)
Definition swipingState : State :=
  set_isSwiping true sampleState.

(** ** Facts about the JavaScript helpers *)

Section FindIndex.
Context {A : Type} (q : A → bool).

Lemma findIndex_from_range (a : list A) (k : Z) :
  findIndex_from q a k = -1 ∨
  k ≤ findIndex_from q a k < k + Z.of_nat (length a).
Proof.
  revert k. induction a as [|x r IH]; intros k; simpl; [by left|].
  destruct (q x); [right; lia|].
  destruct (IH (k + 1)) as [->|?]; [by left|right; lia].
Qed.

Lemma findIndex_from_none (a : list A) (k : Z) :
  Forall (λ x, q x = false) a → findIndex_from q a k = -1.
Proof.
  intros H. revert k. induction H as [|x r Hx _ IH]; intros k; simpl; [done|].
  by rewrite Hx.
Qed.

Lemma findIndex_from_some (a : list A) (k : Z) :
  Exists (λ x, q x = true) a →
  k ≤ findIndex_from q a k < k + Z.of_nat (length a).
Proof.
  intros H. revert k. induction H as [x r Hx|x r _ IH]; intros k; simpl.
  - rewrite Hx. lia.
  - destruct (q x); [lia|]. specialize (IH (k + 1)). lia.
Qed.

Lemma findIndex_from_first (a : list A) (k : Z) (n : nat) (x : A) :
  a !! n = Some x → q x = true →
  (∀ m y, (m < n)%nat → a !! m = Some y → q y = false) →
  findIndex_from q a k = k + Z.of_nat n.
Proof.
  revert k n. induction a as [|y r IH]; intros k n Hn Hx Hlt; [done|].
  destruct n as [|n]; simpl in *.
  - simplify_eq. rewrite Hx. lia.
  - rewrite (Hlt 0%nat y); [|lia|done].
    rewrite (IH (k + 1) n); [lia|done..|].
    intros m z Hm Hz. apply (Hlt (S m) z); [lia|done].
Qed.

End FindIndex.

Lemma findIndex_member (name : string) (names : list string) :
  name ∈ names →
  0 ≤ findIndex (same_name (Some name)) names < Z.of_nat (length names).
Proof.
  intros H. unfold findIndex.
  pose proof (findIndex_from_some (same_name (Some name)) names 0) as F.
  rewrite Z.add_0_l in F. apply F.
  apply Exists_exists. exists name. split; [done|].
  unfold same_name. by rewrite bool_decide_eq_true.
Qed.

Lemma findIndex_not_member (name : string) (names : list string) :
  name ∉ names → findIndex (same_name (Some name)) names = -1.
Proof.
  intros H. apply findIndex_from_none, Forall_forall. intros x Hx.
  unfold same_name. rewrite bool_decide_eq_false. intros [= ->]. done.
Qed.

Lemma findIndex_undefined (names : list string) :
  findIndex (same_name None) names = -1.
Proof. apply findIndex_from_none, Forall_forall. by intros x _. Qed.

Lemma findIndex_NoDup (names : list string) (n : nat) (name : string) :
  NoDup names → names !! n = Some name →
  findIndex (same_name (Some name)) names = Z.of_nat n.
Proof.
  intros ND Hn. unfold findIndex.
  rewrite (findIndex_from_first _ names 0 n name); [lia|done|..].
  - unfold same_name. by rewrite bool_decide_eq_true.
  - intros m y Hm Hy. unfold same_name. rewrite bool_decide_eq_false.
    intros [= ->]. pose proof (NoDup_lookup _ _ _ _ ND Hy Hn). lia.
Qed.

Lemma at_Some {A : Type} (a : list A) (i : Z) (x : A) :
  at_ a i = Some x ↔ 0 ≤ i ∧ a !! Z.to_nat i = Some x.
Proof.
  unfold at_. case_bool_decide; [split; [done|lia]|].
  split; [intros H'; split; [lia|done]|by intros [_ H']].
Qed.

Lemma at_in_range {A : Type} (a : list A) (i : Z) :
  0 ≤ i < Z.of_nat (length a) → is_Some (at_ a i).
Proof.
  intros H. unfold at_. rewrite bool_decide_eq_false_2 by lia.
  apply lookup_lt_is_Some. lia.
Qed.

Lemma at_negative {A : Type} (a : list A) (i : Z) : i < 0 → at_ a i = None.
Proof. intros H. unfold at_. by rewrite bool_decide_eq_true_2. Qed.

(** ** The commit of a pane switch *)

Lemma commitReaction_same (p : Props) (s : State) :
  calculateNextOffset s = index s → commitReaction p s = s.
Proof.
  intros H. unfold commitReaction. by rewrite bool_decide_eq_false_2 by (by rewrite H; intros []).
Qed.

Lemma commitReaction_index (p : Props) (s : State) :
  index (commitReaction p s) = calculateNextOffset s.
Proof.
  unfold commitReaction. case_bool_decide as H; [by destruct (onIndexChange p)|].
  destruct (decide (calculateNextOffset s = index s)); [done|contradiction].
Qed.

Lemma commitReaction_translateY (p : Props) (s : State) :
  translateY p (commitReaction p s) = translateY p s.
Proof.
  unfold commitReaction. case_bool_decide; [|done].
  by destruct (onIndexChange p).
Qed.

(** Without an [onIndexChange] callback the commit calls nothing. *)
Lemma commitReaction_silent (p : Props) (s : State) :
  onIndexChange p = false →
  notifications (commitReaction p s) = notifications s.
Proof.
  intros H. unfold commitReaction. rewrite H. by case_bool_decide.
Qed.

(** C1.  A commit to a pane [i] other than the active one adds the stored
    scroll offset of the active pane minus that of pane [i] to [offset],
    hands exactly one payload to the [onIndexChange] callback, built from
    the index and names read before the commit, and leaves [index] at [i];
    the header translation is the same before and after. *)
Theorem commit_carries_offset (p : Props) (s : State) (i a b o : Z)
    (prevName name : string) :
  calculateNextOffset s = i →
  i ≠ index s →
  at_ (scrollY s) (index s) = Some (Num a) →
  at_ (scrollY s) i = Some (Num b) →
  at_ (tabNames s) (index s) = Some prevName →
  at_ (tabNames s) i = Some name →
  offset s = Num o →
  onIndexChange p = true →
  offset (commitReaction p s) = Num (o + (a - b)) ∧
  notifications (commitReaction p s) =
    notifications s ++
      [IndexChange.mk (index s) i (Some prevName) (Some name)] ∧
  index (commitReaction p s) = i ∧
  translateY p (commitReaction p s) = translateY p s.
Proof.
  intros Hi Hne Ha Hb Hpn Hn Ho Hcb.
  split_and!.
  - unfold commitReaction. rewrite Hi, bool_decide_eq_true_2 by done.
    rewrite Hcb. simpl. rewrite Ha, Hb, Ho. simpl. f_equal. lia.
  - unfold commitReaction. rewrite Hi, bool_decide_eq_true_2 by done.
    rewrite Hcb. simpl. by rewrite Hpn, Hn.
  - by rewrite commitReaction_index.
  - apply commitReaction_translateY.
Qed.

(** Pane A at scroll 120, pane B at scroll 40: the commit A→B adds 80. *)
Lemma commit_carries_offset_witness :
  offset (commitReaction sampleProps (set_calculateNextOffset 1 sampleState))
    = Num (0 + (120 - 40)) ∧
  notifications (commitReaction sampleProps (set_calculateNextOffset 1 sampleState))
    = [] ++ [IndexChange.mk 0 1 (Some "A"%string) (Some "B"%string)] ∧
  index (commitReaction sampleProps (set_calculateNextOffset 1 sampleState)) = 1 ∧
  translateY sampleProps
      (commitReaction sampleProps (set_calculateNextOffset 1 sampleState))
    = translateY sampleProps (set_calculateNextOffset 1 sampleState).
Proof.
  apply (commit_carries_offset sampleProps
           (set_calculateNextOffset 1 sampleState) 1 120 40 0 "A" "B");
    try reflexivity.
  simpl. lia.
Defined.

(** ** The diff-clamp accumulator *)

Lemma diffClampReaction_headerScrollDistance (p : Props) (s : State) :
  headerScrollDistance p (diffClampReaction p s) = headerScrollDistance p s.
Proof.
  unfold diffClampReaction.
  repeat (case_match; try done).
Qed.

(** One run of the reaction keeps a bounded accumulator bounded, whatever
    the two scroll accumulators hold. *)
Lemma diffClampReaction_bounded (p : Props) (s : State) (v : Z) :
  accDiffClamp s = Num v →
  0 ≤ v ≤ headerScrollDistance p s →
  ∃ v', accDiffClamp (diffClampReaction p s) = Num v' ∧
        0 ≤ v' ≤ headerScrollDistance p s.
Proof.
  intros Hv Hb. unfold diffClampReaction.
  destruct (diffClampEnabled p); simpl; [|by exists v].
  destruct (accScrollY s) as [x|], (oldAccScrollY s) as [y|]; simpl;
    try by exists v.
  case_bool_decide; [|by exists v].
  rewrite Hv. simpl.
  repeat case_bool_decide; simpl; try (by exists v); eexists; (split; [done|lia]).
Qed.

(** On finite accumulators the reaction adds the delta and clamps. *)
Lemma diffClampReaction_clamps (p : Props) (s : State) (v old new : Z) :
  accDiffClamp s = Num v →
  0 ≤ v ≤ headerScrollDistance p s →
  accDiffClamp (diffClampReaction p (set_accScrollY (Num old) (Num new) s)) =
    Num (if diffClampEnabled p
         then Z.max 0 (Z.min (headerScrollDistance p s) (v + (new - old)))
         else v).
Proof.
  intros Hv Hb. unfold diffClampReaction.
  change (headerScrollDistance p (set_accScrollY (Num old) (Num new) s))
    with (headerScrollDistance p s).
  destruct (diffClampEnabled p); simpl; [|done].
  rewrite Hv.
  repeat case_bool_decide; simpl; try rewrite Hv; f_equal; lia.
Qed.

(** C2.  Starting from 0 with a non-negative scroll distance, the
    accumulator stays in [0, headerScrollDistance] after every sequence of
    writes to the scroll accumulators; a further update adds the delta
    [accScrollY - oldAccScrollY] and clamps the sum to that interval. *)
Theorem accDiffClamp_bounded (p : Props) (s : State)
    (ws : list (number * number)) :
  accDiffClamp s = Num 0 →
  0 ≤ headerScrollDistance p s →
  ∃ v,
    accDiffClamp (scrollUpdates p s ws) = Num v ∧
    0 ≤ v ≤ headerScrollDistance p s ∧
    ∀ old new,
      accDiffClamp
        (diffClampReaction p
           (set_accScrollY (Num old) (Num new) (scrollUpdates p s ws))) =
      Num (if diffClampEnabled p
           then Z.max 0 (Z.min (headerScrollDistance p s) (v + (new - old)))
           else v).
Proof.
  intros H0 Hd.
  assert (∀ ws s v, accDiffClamp s = Num v →
            0 ≤ v ≤ headerScrollDistance p s →
            ∃ v', accDiffClamp (scrollUpdates p s ws) = Num v' ∧
                  0 ≤ v' ≤ headerScrollDistance p s ∧
                  headerScrollDistance p (scrollUpdates p s ws) =
                    headerScrollDistance p s) as Inv.
  { clear. induction ws as [|[old new] r IH]; intros s v Hv Hb; simpl.
    - by exists v.
    - destruct (diffClampReaction_bounded p (set_accScrollY old new s) v)
        as (v1 & Hv1 & Hb1); [done..|].
      destruct (IH _ v1 Hv1) as (v2 & Hv2 & Hb2 & Hh).
      { by rewrite diffClampReaction_headerScrollDistance. }
      rewrite diffClampReaction_headerScrollDistance in Hb2, Hh.
      exists v2. split; [done|]. split; [exact Hb2|exact Hh]. }
  destruct (Inv ws s 0 H0) as (v & Hv & Hb & Hh); [lia|].
  exists v. split; [done|]. split; [done|].
  intros old new. rewrite <- Hh. apply diffClampReaction_clamps; [done|].
  by rewrite Hh.
Qed.

Lemma accDiffClamp_bounded_witness :
  ∃ v,
    accDiffClamp
      (scrollUpdates diffClampProps sampleState
         [(Num 0, Num 70); (Num 70, Num 190); (Num 190, NaN); (Num 190, Num 20)])
      = Num v ∧
    0 ≤ v ≤ headerScrollDistance diffClampProps sampleState ∧
    ∀ old new,
      accDiffClamp
        (diffClampReaction diffClampProps
           (set_accScrollY (Num old) (Num new)
              (scrollUpdates diffClampProps sampleState
                 [(Num 0, Num 70); (Num 70, Num 190); (Num 190, NaN);
                  (Num 190, Num 20)]))) =
      Num (if diffClampEnabled diffClampProps
           then Z.max 0
                  (Z.min (headerScrollDistance diffClampProps sampleState)
                     (v + (new - old)))
           else v).
Proof.
  apply (accDiffClamp_bounded diffClampProps sampleState).
  - reflexivity.
  - unfold headerScrollDistance. simpl. lia.
Defined.

(** ** Header geometry and translation *)

(** The scroll distance of a header shorter than [minHeaderHeight] is
    negative: nothing clamps the difference. *)
Lemma headerScrollDistance_negative :
  ∃ s, Container narrowHeaderProps ["A"%string] 300 = Ok s ∧
       headerHeight s = Some 50 ∧
       headerScrollDistance narrowHeaderProps s = -50 ∧
       headerScrollDistance narrowHeaderProps s ≠ Z.max 0 (50 - 100) ∧
       ¬ 0 ≤ headerScrollDistance narrowHeaderProps s.
Proof.
  eexists. split; [reflexivity|]. split; [reflexivity|].
  split; [reflexivity|]. split; [discriminate|].
  unfold headerScrollDistance. simpl. lia.
Qed.

(** C5 (amended).  The scroll distance is the measured header height minus
    [minHeaderHeight], and 0 while no height is known; it is non-negative
    exactly when no height is known or [minHeaderHeight] does not exceed
    it. *)
Theorem headerScrollDistance_value (p : Props) (s : State) :
  (∀ h, headerScrollDistance p (getHeaderHeight h s) = h - minHeaderHeight p) ∧
  (∀ h, headerHeight s = Some h →
        headerScrollDistance p s = h - minHeaderHeight p) ∧
  (headerHeight s = None → headerScrollDistance p s = 0) ∧
  (0 ≤ headerScrollDistance p s ↔
   ∀ h, headerHeight s = Some h → minHeaderHeight p ≤ h).
Proof.
  split_and!.
  - intros h. unfold getHeaderHeight, headerScrollDistance.
    case_bool_decide as H; simpl; [done|].
    destruct (decide (headerHeight s = Some h)) as [->|]; [done|contradiction].
  - intros h H. unfold headerScrollDistance. by rewrite H.
  - intros H. unfold headerScrollDistance. by rewrite H.
  - unfold headerScrollDistance. destruct (headerHeight s) as [h|].
    + split; [intros H h' [= <-]; lia|intros H; specialize (H h eq_refl); lia].
    + split; [by intros _ h'|done].
Qed.

Lemma headerScrollDistance_value_witness :
  headerScrollDistance sampleProps sampleState = 150 - 50 ∧
  0 ≤ headerScrollDistance sampleProps sampleState.
Proof.
  destruct (headerScrollDistance_value sampleProps sampleState)
    as (_ & Hv & _ & Hpos).
  split.
  - apply (Hv 150). reflexivity.
  - apply Hpos. intros h [= <-]. simpl. lia.
Defined.

(** C6.  With finite values, the header translation is [-accDiffClamp] in
    diff-clamp mode and [-min(scrollYCurrent, headerScrollDistance)] in
    direct mode; [diffClampEnabled] alone selects between the two. *)
Theorem translateY_modes (p : Props) (s : State) (y a : Z) :
  scrollYCurrent s = Num y →
  accDiffClamp s = Num a →
  translateY p s =
    Num (if diffClampEnabled p then - a
         else - Z.min y (headerScrollDistance p s)).
Proof.
  intros Hy Ha. unfold translateY. rewrite Hy, Ha.
  by destruct (diffClampEnabled p).
Qed.

Lemma translateY_modes_witness :
  translateY sampleProps sampleState =
    Num (if diffClampEnabled sampleProps then - 0
         else - Z.min 120 (headerScrollDistance sampleProps sampleState)) ∧
  translateY diffClampProps sampleState =
    Num (if diffClampEnabled diffClampProps then - 0
         else - Z.min 120 (headerScrollDistance diffClampProps sampleState)).
Proof.
  split.
  - apply (translateY_modes sampleProps sampleState 120 0); reflexivity.
  - apply (translateY_modes diffClampProps sampleState 120 0); reflexivity.
Defined.

(** With a scroll distance of 0 and direct mode, a pane that reports a
    negative offset moves the header: here by 30. *)
Lemma translateY_overscrolled :
  ∃ s0 s1,
    Container noHeaderProps ["A"%string] 300 = Ok s0 ∧
    run noHeaderProps s0 [PaneWrite overscrolled] = Ok s1 ∧
    headerScrollDistance noHeaderProps s1 = 0 ∧
    translateY noHeaderProps s1 = Num 30 ∧
    translateY noHeaderProps s1 ≠ Num 0.
Proof.
  eexists _, _. split; [reflexivity|]. split; [reflexivity|].
  split; [reflexivity|]. split; [reflexivity|discriminate].
Qed.

Lemma run_PaneWrite_total (p : Props) (vs : list PaneValues) (s : State) :
  ∃ s', run p s (PaneWrite <$> vs) = Ok s' ∧
        headerScrollDistance p s' = headerScrollDistance p s ∧
        (headerScrollDistance p s = 0 → accDiffClamp s = Num 0 →
         accDiffClamp s' = Num 0).
Proof.
  revert s. induction vs as [|v r IH]; intros s; simpl; [by exists s|].
  destruct (IH (diffClampReaction p (set_paneValues v s))) as (s' & Hr & Hh & Ha).
  exists s'. rewrite diffClampReaction_headerScrollDistance in Hh, Ha.
  split; [done|]. split; [done|].
  intros Hd H0. apply Ha; [done|].
  destruct (diffClampReaction_bounded p (set_paneValues v s) 0)
    as (v' & Hv' & Hb'); [done|change (0 ≤ 0 ≤ headerScrollDistance p s); lia|].
  rewrite Hv'. f_equal.
  change (0 ≤ v' ≤ headerScrollDistance p s) in Hb'. lia.
Qed.

(** C7 (amended).  With a scroll distance of 0 and the accumulator at its
    initial 0, every sequence of pane writes leaves the header translation
    at 0 in diff-clamp mode, and in direct mode whenever the current scroll
    offset is not negative. *)
Theorem translateY_zero_distance (p : Props) (s : State)
    (vs : list PaneValues) :
  headerScrollDistance p s = 0 →
  accDiffClamp s = Num 0 →
  ∃ s', run p s (PaneWrite <$> vs) = Ok s' ∧
        (diffClampEnabled p = true → translateY p s' = Num 0) ∧
        (diffClampEnabled p = false →
         ∀ y, scrollYCurrent s' = Num y → 0 ≤ y → translateY p s' = Num 0).
Proof.
  intros Hd H0.
  destruct (run_PaneWrite_total p vs s) as (s' & Hr & Hh & Ha).
  exists s'. split; [done|]. split.
  - intros He. unfold translateY. rewrite He, Ha by done. done.
  - intros He y Hy Hpos. unfold translateY. rewrite He, Hy, Hh, Hd. simpl.
    f_equal. lia.
Qed.

Lemma translateY_zero_distance_witness :
  ∃ s', run noHeaderProps (set_headerHeight None sampleState)
          (PaneWrite <$> [mkPaneValues (Num 1) false (Num 75) [Num 75]
                            (Num 75) (Num 0)]) = Ok s' ∧
        translateY noHeaderProps s' = Num 0.
Proof.
  destruct (translateY_zero_distance noHeaderProps
              (set_headerHeight None sampleState)
              [mkPaneValues (Num 1) false (Num 75) [Num 75] (Num 75) (Num 0)]
              eq_refl eq_refl) as (s' & Hr & _ & Hd).
  exists s'. split; [exact Hr|].
  apply (Hd eq_refl 75); [|lia].
  vm_compute in Hr. injection Hr as <-. reflexivity.
Defined.

(** ** Tab press and imperative commands *)

(** While the pager is being dragged ([isSwiping]) and no pane scrolls or
    glides, [jumpToTab] and [setIndex] are accepted and the active index
    changes. *)
Lemma jumpToTab_accepted_while_swiping :
  ∃ s0 s1,
    Container sampleProps ["A"; "B"]%string 300 = Ok s0 ∧
    run sampleProps s0 [PagerBeginDrag] = Ok s1 ∧
    isSwiping s1 = true ∧
    index s1 = 0 ∧
    (jumpToTab "B" s1).1 = true ∧
    calculateNextOffset (jumpToTab "B" s1).2 = 1 ∧
    index (commitReaction sampleProps (jumpToTab "B" s1).2) = 1 ∧
    (setIndex 1 s1).1 = true ∧
    index (commitReaction sampleProps (setIndex 1 s1).2) = 1.
Proof.
  eexists _, _. split; [reflexivity|]. split; [reflexivity|].
  repeat split.
Qed.

(** C3 (amended).  While [isScrolling] is truthy or [isGliding] is true,
    [setIndex] and [jumpToTab] return [false] and a tab press does nothing:
    the state is left as it was. *)
Theorem commands_rejected (s : State) (i : Z) (name : string) :
  truthy (isScrolling s) = true ∨ isGliding s = true →
  setIndex i s = (false, s) ∧
  jumpToTab name s = (false, s) ∧
  onTabPress (Some name) s = s.
Proof.
  intros H. unfold setIndex, jumpToTab, onTabPress.
  destruct H as [-> | ->]; simpl; [done|].
  by destruct (truthy (isScrolling s)).
Qed.

Lemma commands_rejected_witness :
  setIndex 1 glidingState = (false, glidingState) ∧
  jumpToTab "B" glidingState = (false, glidingState) ∧
  onTabPress (Some "B"%string) glidingState = glidingState.
Proof.
  apply (commands_rejected glidingState 1 "B"). right. reflexivity.
Defined.

Lemma onTabPress_focused (s : State) (name : string) (k : RefKind) :
  truthy (isScrolling s) = false →
  isGliding s = false →
  focusedTab s = Some name →
  refMap s !! name = Some k →
  onTabPress (Some name) s =
    match scrollToTop k name with
    | c :: _ =>
        issue c
          (set_calculateNextOffset
             (findIndex (same_name (Some name)) (tabNames s)) s)
    | [] =>
        set_calculateNextOffset
          (findIndex (same_name (Some name)) (tabNames s)) s
    end.
Proof.
  intros Hs Hg Hf Hk. unfold onTabPress. rewrite Hs, Hg. simpl.
  rewrite Hf, bool_decide_eq_true_2 by done. rewrite Hk. by destruct k.
Qed.

(** C8.  With no pane scrolling or gliding, [setIndex i] for the active
    pane [i] (and a press on its tab) returns [true] and calls the
    scroll-to-top method of the pane's ref; the index, the offset and the
    notification log are untouched, and calling again changes no shared
    value. *)
Theorem setIndex_active_pane (p : Props) (s : State) (i : Z)
    (name : string) (k : RefKind) :
  NoDup (tabNames s) →
  at_ (tabNames s) i = Some name →
  index s = i →
  truthy (isScrolling s) = false →
  isGliding s = false →
  refMap s !! name = Some k →
  k ≠ NoScrollMethod →
  let s1 := commitReaction p (setIndex i s).2 in
  (setIndex i s).1 = true ∧
  commitReaction p (onTabPress (Some name) s) = s1 ∧
  commands s1 = commands s ++ scrollToTop k name ∧
  length (scrollToTop k name) = 1%nat ∧
  index s1 = index s ∧
  offset s1 = offset s ∧
  notifications s1 = notifications s ∧
  (calculateNextOffset s = index s → shared s1 = shared s) ∧
  shared (commitReaction p (setIndex i s1).2) = shared s1.
Proof.
  intros ND Hn Hi Hs Hg Hk Hkind s1.
  assert (findIndex (same_name (Some name)) (tabNames s) = i) as Hfind.
  { apply at_Some in Hn as [Hpos Hn].
    rewrite (findIndex_NoDup _ _ _ ND Hn). lia. }
  assert (focusedTab s = Some name) as Hf by (unfold focusedTab; by rewrite Hi).
  assert (∃ c, scrollToTop k name = [c]) as [c Hc]
    by (destruct k; [by eexists..|done]).
  assert (s1 = issue c (set_calculateNextOffset i s)) as Hs1.
  { unfold s1, setIndex. rewrite Hs, Hg. simpl. rewrite Hn.
    rewrite (onTabPress_focused s name k), Hc, Hfind by done.
    apply commitReaction_same. simpl. done. }
  split_and!.
  - unfold setIndex. by rewrite Hs, Hg.
  - unfold s1, setIndex. rewrite Hs, Hg. simpl. by rewrite Hn.
  - by rewrite Hs1, Hc.
  - by rewrite Hc.
  - by rewrite Hs1.
  - by rewrite Hs1.
  - by rewrite Hs1.
  - intros Hsettled. rewrite Hs1. unfold shared. simpl.
    by rewrite Hsettled, Hi.
  - unfold setIndex. rewrite Hs1. simpl. rewrite Hs, Hg. simpl. rewrite Hn.
    rewrite (onTabPress_focused _ name k), Hc by done. simpl.
    rewrite Hfind. rewrite commitReaction_same by (simpl; done).
    done.
Qed.

Lemma setIndex_active_pane_witness :
  (setIndex 0 mountedState).1 = true ∧
  commands (commitReaction sampleProps (setIndex 0 mountedState).2) =
    [ScrollTo "A"] ∧
  index (commitReaction sampleProps (setIndex 0 mountedState).2) = 0 ∧
  shared (commitReaction sampleProps (setIndex 0 mountedState).2) =
    shared mountedState.
Proof.
  destruct (setIndex_active_pane sampleProps mountedState 0 "A" HasScrollTo)
    as (H1 & _ & H2 & _ & H3 & _ & _ & H4 & _);
    try reflexivity; try discriminate.
  - apply (bool_decide_unpack _). exact I.
  - split; [exact H1|]. split; [exact H2|]. split; [exact H3|].
    apply H4. reflexivity.
Defined.

(** C10.  With no pane scrolling or gliding, [jumpToTab] with a name that
    no tab carries returns [true], asks the pager for index -1 and leaves
    -1 as pending target; the commit makes it the index, and when the index
    was another one it reads [scrollY] at -1, which is undefined, so that
    the offset becomes [NaN]. *)
Theorem jumpToTab_unknown_name (p : Props) (s : State) (name : string) :
  name ∉ tabNames s →
  truthy (isScrolling s) = false →
  isGliding s = false →
  (jumpToTab name s).1 = true ∧
  calculateNextOffset (jumpToTab name s).2 = -1 ∧
  commands (jumpToTab name s).2 = commands s ++ [ScrollToIndex (-1) true] ∧
  index (commitReaction p (jumpToTab name s).2) = -1 ∧
  at_ (scrollY s) (-1) = None ∧
  (index s ≠ -1 →
   offset (commitReaction p (jumpToTab name s).2) =
     add (sub (ToNumber (at_ (scrollY s) (index s)))
              (ToNumber (at_ (scrollY s) (-1))))
         (offset s) ∧
   offset (commitReaction p (jumpToTab name s).2) = NaN).
Proof.
  intros Hname Hs Hg.
  assert (Some name ≠ focusedTab s) as Hf.
  { unfold focusedTab. intros H. symmetry in H. apply at_Some in H as [_ H].
    apply Hname. by eapply list_elem_of_lookup_2. }
  assert ((jumpToTab name s).2 =
          issue (ScrollToIndex (-1) true) (set_calculateNextOffset (-1) s))
    as Hj.
  { unfold jumpToTab, onTabPress. rewrite Hs, Hg. simpl.
    rewrite (findIndex_not_member _ _ Hname).
    by rewrite bool_decide_eq_false_2. }
  split_and!.
  - unfold jumpToTab. by rewrite Hs, Hg.
  - by rewrite Hj.
  - by rewrite Hj.
  - by rewrite commitReaction_index, Hj.
  - done.
  - intros Hi. rewrite Hj. unfold commitReaction. simpl.
    rewrite bool_decide_eq_true_2 by done.
    assert (∀ a b, add (sub a (ToNumber (at_ (scrollY s) (-1)))) b = NaN) as HN
      by (intros [] []; done).
    split; [by destruct (onIndexChange p)|].
    destruct (onIndexChange p); simpl; apply HN.
Qed.

Lemma jumpToTab_unknown_name_witness :
  (jumpToTab "Z" sampleState).1 = true ∧
  calculateNextOffset (jumpToTab "Z" sampleState).2 = -1 ∧
  index (commitReaction sampleProps (jumpToTab "Z" sampleState).2) = -1 ∧
  offset (commitReaction sampleProps (jumpToTab "Z" sampleState).2) = NaN.
Proof.
  destruct (jumpToTab_unknown_name sampleProps sampleState "Z")
    as (H1 & H2 & _ & H3 & _ & H4); try reflexivity.
  - apply (bool_decide_unpack _). exact I.
  - split; [exact H1|]. split; [exact H2|]. split; [exact H3|].
    apply H4. discriminate.
Defined.

(** ** Construction *)

Lemma forEach_valid_elements (children : list Child) :
  Forall (λ c, c = Element) children → forEach_valid children = Ok tt.
Proof. induction 1 as [|c r -> _ IH]; simpl; done. Qed.

Lemma forEach_valid_stray (children : list Child) :
  NotElement ∈ children →
  forEach_valid children =
    Throw "CollapsibleTabs children must be array of React Elements.".
Proof.
  induction children as [|c r IH]; intros H; [by apply elem_of_nil in H|].
  simpl. destruct c; simpl; [|done].
  apply IH. by apply elem_of_cons in H as [?|?].
Qed.

(** C9.  Construction throws for an empty list of children and for one
    that holds a child that is not an element, and no state is produced;
    it returns a state when there is at least one child and every child
    is an element. *)
Theorem construction_checks_children (p : Props) (tabNamesArray : list string)
    (width : positive) :
  (children p = [] →
   Container p tabNamesArray width =
     Throw "CollapsibleTabs must have at least one child.") ∧
  (children p ≠ [] → NotElement ∈ children p →
   Container p tabNamesArray width =
     Throw "CollapsibleTabs children must be array of React Elements.") ∧
  (children p ≠ [] → Forall (λ c, c = Element) (children p) →
   ∃ s, Container p tabNamesArray width = Ok s).
Proof.
  unfold Container, init. split_and!.
  - by intros ->.
  - intros Hne Hin. rewrite bool_decide_eq_false_2
      by (by destruct (children p)).
    by rewrite forEach_valid_stray.
  - intros Hne Hall. rewrite bool_decide_eq_false_2
      by (by destruct (children p)).
    rewrite forEach_valid_elements by done. simpl. by eexists.
Qed.

Lemma construction_checks_children_witness :
  Container (mkProps None None 0 false [] true) [] 300 =
    Throw "CollapsibleTabs must have at least one child." ∧
  Container (mkProps None None 0 false [Element; NotElement] true)
      ["A"; "B"]%string 300 =
    Throw "CollapsibleTabs children must be array of React Elements." ∧
  ∃ s, Container sampleProps ["A"; "B"]%string 300 = Ok s.
Proof.
  split; [|split].
  - apply (construction_checks_children
             (mkProps None None 0 false [] true) [] 300). reflexivity.
  - apply (construction_checks_children
             (mkProps None None 0 false [Element; NotElement] true)
             ["A"; "B"]%string 300); [discriminate|].
    simpl. apply (bool_decide_unpack _). exact I.
  - apply (construction_checks_children sampleProps ["A"; "B"]%string 300);
      [discriminate|].
    simpl. apply (bool_decide_unpack _). exact I.
Defined.

(** ** The active index stays an ordinal of the tab set *)


Lemma commitReaction_tabNames (p : Props) (s : State) :
  tabNames (commitReaction p s) = tabNames s.
Proof.
  unfold commitReaction. case_bool_decide; [|done].
  by destruct (onIndexChange p).
Qed.

Lemma commitReaction_calculateNextOffset (p : Props) (s : State) :
  calculateNextOffset (commitReaction p s) = calculateNextOffset s.
Proof.
  unfold commitReaction. case_bool_decide; [|done].
  by destruct (onIndexChange p).
Qed.


Lemma onTabPress_pending (name : option string) (s : State) :
  tabNames (onTabPress name s) = tabNames s ∧
  index (onTabPress name s) = index s ∧
  (calculateNextOffset (onTabPress name s) = calculateNextOffset s ∨
   calculateNextOffset (onTabPress name s) =
     findIndex (same_name name) (tabNames s)).
Proof.
  unfold onTabPress.
  destruct (negb (truthy (isScrolling s)) && negb (isGliding s)); [|auto].
  case_bool_decide; [|auto].
  destruct (refMap s !! refKey name) as [[]|]; auto.
Qed.

Lemma onTabPress_accepted (name : option string) (s : State) :
  truthy (isScrolling s) = false →
  isGliding s = false →
  calculateNextOffset (onTabPress name s) =
    findIndex (same_name name) (tabNames s).
Proof.
  intros Hs Hg. unfold onTabPress. rewrite Hs, Hg. simpl.
  case_bool_decide; [|done].
  by destruct (refMap s !! refKey name) as [[]|].
Qed.




Lemma round_div_nearest (x n : Z) (w : positive) :
  round_div x w = n ↔
  2 * n * Z.pos w - Z.pos w ≤ 2 * x ∧ 2 * x < 2 * n * Z.pos w + Z.pos w.
Proof.
  unfold round_div.
  pose proof (Z.div_mod (2 * x + Z.pos w) (2 * Z.pos w)) as Hdm.
  pose proof (Z.mod_pos_bound (2 * x + Z.pos w) (2 * Z.pos w)) as Hb.
  assert (0 < Z.pos w) as Hw by lia.
  split.
  - intros <-. nia.
  - intros [H1 H2]. symmetry. apply (Z.div_unique_pos _ _ n (2 * x + Z.pos w - 2 * Z.pos w * n)); nia.
Qed.

(** What a rebuild leaves alone when the initial index is the same for
    the new tab names, in a settled state. *)
Lemma rebuild_same_initial (p : Props) (names : list string)
    (width : positive) (s : State) :
  initialIndex p names = initialIndex p (tabNames s) →
  calculateNextOffset s = index s →
  tabNames (rebuild p names width s) = names ∧
  index (rebuild p names width s) = index s ∧
  calculateNextOffset (rebuild p names width s) = index s ∧
  windowWidth (rebuild p names width s) = width ∧
  isSwiping (rebuild p names width s) = isSwiping s ∧
  isScrolling (rebuild p names width s) = isScrolling s ∧
  isGliding (rebuild p names width s) = isGliding s ∧
  (scrollX (rebuild p names width s) = scrollX s ∨
   scrollX (rebuild p names width s) = index s * Z.pos width).
Proof.
  intros Hi Hc. unfold rebuild. simpl.
  rewrite (bool_decide_eq_false_2 (initialIndex p names ≠ _))
    by (by intros []).
  split_and!; try done.
  - by case_bool_decide.
  - case_bool_decide; [by right|by left].
Qed.

Lemma effects_quiet (p : Props) (s : State) :
  tabNames (firstRenderEffect p (resizeEffect s)) = tabNames s ∧
  index (firstRenderEffect p (resizeEffect s)) = index s ∧
  calculateNextOffset (firstRenderEffect p (resizeEffect s))
    = calculateNextOffset s ∧
  windowWidth (firstRenderEffect p (resizeEffect s)) = windowWidth s ∧
  isSwiping (firstRenderEffect p (resizeEffect s)) = isSwiping s ∧
  isScrolling (firstRenderEffect p (resizeEffect s)) = isScrolling s ∧
  isGliding (firstRenderEffect p (resizeEffect s)) = isGliding s ∧
  scrollX (firstRenderEffect p (resizeEffect s)) = scrollX s.
Proof.
  unfold firstRenderEffect, resizeEffect.
  by repeat (case_match; simpl).
Qed.





(** When the initial tab is dropped from the tab set, the re-render
    builds the index anew from [initialTabName]: here -1, which the
    recovery does not touch. *)
Lemma index_out_of_range_after_rerender :
  ∃ s0 s,
    Container strayTabProps ["A"; "B"]%string 300 = Ok s0 ∧
    index s0 = 1 ∧
    step strayTabProps s0 (Rerender [Element] ["A"%string]) = Ok s ∧
    tabNames s = ["A"%string] ∧
    index s = -1.
Proof.
  eexists _, _. split; [reflexivity|]. split; [reflexivity|].
  split; [reflexivity|]. split; reflexivity.
Qed.




(** * Further properties of the container *)

(** ** The commit, again *)

(** X1.  Running the commit reaction a second time changes nothing: the
    offset is carried and the callback is called once per pane switch,
    however often the reaction is scheduled. *)
Theorem commitReaction_idempotent (p : Props) (s : State) :
  commitReaction p (commitReaction p s) = commitReaction p s.
Proof.
  apply commitReaction_same.
  by rewrite commitReaction_index, commitReaction_calculateNextOffset.
Qed.

(** ** The pager *)

(** X4.  The page whose layout offset is the pager position rounds back to
    that page: [Math.round(offset / windowWidth)] of the offset that
    [getItemLayout] gives page [i] is [i], for every width. *)
Theorem getItemLayout_round_trip (s : State) (i : Z) :
  round_div (ItemLayout.offset (getItemLayout s i)) (windowWidth s) =
    ItemLayout.index (getItemLayout s i).
Proof. apply round_div_nearest. simpl. lia. Qed.

(** X5.  A pager scroll event changes nothing but [scrollX] when the pager
    is not being dragged, and also while it is dragged as long as the
    position stays less than half a page from the active page. *)
Theorem pager_scroll_within_page (p : Props) (s : State) (x : Z) :
  calculateNextOffset s = index s →
  isSwiping s = false ∨ nearest_page s x (index s) →
  step p s (PagerScroll x) = Ok (set_scrollX x s).
Proof.
  intros Hc H. simpl. f_equal. unfold settle, swipeReaction. simpl.
  destruct (isSwiping s) eqn:Hsw.
  - destruct H as [?|Hn]; [done|].
    apply round_div_nearest in Hn. rewrite Hn.
    rewrite bool_decide_eq_false_2 by (by intros []).
    by apply commitReaction_same.
  - by apply commitReaction_same.
Qed.

Lemma pager_scroll_within_page_witness :
  step sampleProps swipingState (PagerScroll 149) =
    Ok (set_scrollX 149 swipingState) ∧
  step sampleProps sampleState (PagerScroll 300) =
    Ok (set_scrollX 300 sampleState).
Proof.
  split.
  - apply (pager_scroll_within_page sampleProps swipingState 149);
      [reflexivity|]. right. unfold nearest_page. simpl. lia.
  - apply (pager_scroll_within_page sampleProps sampleState 300);
      [reflexivity|]. left. reflexivity.
Defined.

(** X6.  While the pager is dragged, a scroll event whose position is
    nearest to another page [n] commits the switch in the same step: the
    index and the pending target become [n], the offset takes up the
    difference of the two panes' stored scroll offsets, and the callback,
    when there is one, gets one payload from the old index to [n]. *)
Theorem pager_scroll_crossing (p : Props) (s : State) (x n : Z) :
  isSwiping s = true →
  nearest_page s x n →
  n ≠ index s →
  ∃ s',
    step p s (PagerScroll x) = Ok s' ∧
    scrollX s' = x ∧
    index s' = n ∧
    calculateNextOffset s' = n ∧
    offset s' =
      add (sub (ToNumber (at_ (scrollY s) (index s)))
               (ToNumber (at_ (scrollY s) n)))
          (offset s) ∧
    notifications s' =
      notifications s ++
        (if onIndexChange p
         then [IndexChange.mk (index s) n
                 (at_ (tabNames s) (index s)) (at_ (tabNames s) n)]
         else []).
Proof.
  intros Hsw Hn Hne. eexists. split; [done|].
  unfold settle, swipeReaction. simpl. rewrite Hsw.
  apply round_div_nearest in Hn. rewrite Hn.
  rewrite bool_decide_eq_true_2 by done.
  unfold commitReaction. simpl. rewrite bool_decide_eq_true_2 by done.
  destruct (onIndexChange p); simpl; rewrite ?app_nil_r; done.
Qed.

Lemma pager_scroll_crossing_witness :
  ∃ s',
    step sampleProps swipingState (PagerScroll 150) = Ok s' ∧
    index s' = 1 ∧
    offset s' = Num 80.
Proof.
  destruct (pager_scroll_crossing sampleProps swipingState 150 1)
    as (s' & Hs & _ & Hi & _ & Ho & _).
  - reflexivity.
  - unfold nearest_page. simpl. lia.
  - discriminate.
  - exists s'. split; [exact Hs|]. split; [exact Hi|]. exact Ho.
Defined.

(** ** Construction, again *)

Lemma init_returns_true (children : list Child) (b : bool) :
  init children = Ok b → b = true.
Proof.
  unfold init. case_bool_decide; [done|].
  destruct (forEach_valid children); simpl; congruence.
Qed.

Lemma findIndex_lt_length {A : Type} (q : A → bool) (a : list A) :
  findIndex q a < Z.of_nat (length a) ∨ a = [].
Proof.
  destruct a as [|x r]; [by right|left].
  destruct (findIndex_from_range q (x :: r) 0) as [H|H];
    unfold findIndex; [rewrite H; simpl|]; lia.
Qed.

Lemma Container_state (p : Props) (tabNamesArray : list string)
    (width : positive) (s : State) :
  Container p tabNamesArray width = Ok s →
  tabNamesArray ≠ [] →
  s =
    mkState (initialHeaderHeight p) (Num 0) (Num 0)
      ((λ _, Num 0) <$> tabNamesArray) (Num 0) (Num 0) (Num 0) (Num 0)
      tabNamesArray (initialIndex p tabNamesArray)
      (initialIndex p tabNamesArray * Z.pos width) false false
      (initialIndex p tabNamesArray) false width
      (initialIndex p tabNamesArray * Z.pos width)
      (initialIndex p tabNamesArray) ∅ []
      (if bool_decide (initialTabName p ≠ None)
          && bool_decide (initialIndex p tabNamesArray ≠ 0)
       then [ScrollToIndex (initialIndex p tabNamesArray) false]
       else []).
Proof.
  intros Hc Hne. unfold Container in Hc.
  destruct (init (children p)) as [b|] eqn:Hi; [|done].
  apply init_returns_true in Hi as ->. simpl in Hc.
  fold (initialIndex p tabNamesArray) in Hc.
  assert (initialIndex p tabNamesArray < Z.of_nat (length tabNamesArray)) as Hlt.
  { unfold initialIndex. destruct (truthy_str (initialTabName p)).
    - by destruct (findIndex_lt_length (same_name (initialTabName p))
                     tabNamesArray).
    - destruct tabNamesArray; [done|simpl; lia]. }
  unfold resizeEffect, firstRenderEffect, recoveryEffect in Hc. simpl in Hc.
  destruct (bool_decide (initialTabName p ≠ None)
            && bool_decide (initialIndex p tabNamesArray ≠ 0)) eqn:Hb;
    simpl in Hc; rewrite bool_decide_eq_false_2 in Hc by lia;
    rewrite commitReaction_same in Hc by done; by injection Hc as <-.
Qed.

(** X7.  A constructed container starts with one stored scroll offset of 0
    per pane, nothing accumulated and no callback called; it asks the
    pager for its initial page, without animation, exactly when
    [initialTabName] is given and the initial index is not 0; and when
    [minHeaderHeight] does not exceed a given header height the header
    starts untranslated. *)
Theorem construction_initial_state (p : Props) (tabNamesArray : list string)
    (width : positive) (s : State) :
  Container p tabNamesArray width = Ok s →
  tabNamesArray ≠ [] →
  index s = initialIndex p tabNamesArray ∧
  calculateNextOffset s = index s ∧
  scrollY s = replicate (length tabNamesArray) (Num 0) ∧
  offset s = Num 0 ∧
  accDiffClamp s = Num 0 ∧
  notifications s = [] ∧
  commands s =
    (if bool_decide (initialTabName p ≠ None) && bool_decide (index s ≠ 0)
     then [ScrollToIndex (index s) false]
     else []) ∧
  (0 ≤ headerScrollDistance p s → translateY p s = Num 0).
Proof.
  intros Hc Hne. rewrite (Container_state _ _ _ _ Hc Hne). simpl.
  split_and!; try done.
  - clear. induction tabNamesArray as [|n r IH]; simpl; [done|by f_equal].
  - unfold translateY, headerScrollDistance. simpl.
    destruct (diffClampEnabled p); [done|].
    intros H. simpl. f_equal. lia.
Qed.

Lemma construction_initial_state_witness :
  ∃ s, Container strayNameProps ["A"; "B"]%string 300 = Ok s ∧
       scrollY s = [Num 0; Num 0] ∧
       commands s = [ScrollToIndex (-1) false] ∧
       translateY strayNameProps s = Num 0.
Proof.
  eexists. split; [reflexivity|].
  destruct (construction_initial_state strayNameProps ["A"; "B"]%string 300 _
              eq_refl) as (_ & _ & Hy & _ & _ & _ & Hcmd & Ht);
    [discriminate|].
  split; [exact Hy|]. split; [exact Hcmd|].
  apply Ht. unfold headerScrollDistance. simpl. lia.
Defined.

(** X8.  The pager position a container starts with is the layout offset
    of its initial page, so that the first drag that begins changes
    nothing but [isSwiping]: no pane switch is pending or committed. *)
Theorem first_drag_keeps_index (p : Props) (tabNamesArray : list string)
    (width : positive) (s : State) :
  Container p tabNamesArray width = Ok s →
  tabNamesArray ≠ [] →
  scrollX s = ItemLayout.offset (getItemLayout s (index s)) ∧
  step p s PagerBeginDrag = Ok (set_isSwiping true s).
Proof.
  intros Hc Hne. rewrite (Container_state _ _ _ _ Hc Hne). simpl.
  split; [lia|]. f_equal. unfold settle, swipeReaction. simpl.
  assert (round_div (initialIndex p tabNamesArray * Z.pos width) width =
          initialIndex p tabNamesArray) as ->
    by (apply round_div_nearest; lia).
  rewrite bool_decide_eq_false_2 by (by intros []).
  by apply commitReaction_same.
Qed.

Lemma first_drag_keeps_index_witness :
  ∃ s, Container sampleProps ["A"; "B"]%string 300 = Ok s ∧
       step sampleProps s PagerBeginDrag = Ok (set_isSwiping true s).
Proof.
  eexists. split; [reflexivity|].
  apply (first_drag_keeps_index sampleProps ["A"; "B"]%string 300);
    [reflexivity|discriminate].
Defined.

(** ** What an event can do *)

Lemma swipeReaction_same_core (s : State) : same_core (swipeReaction s) s.
Proof. unfold swipeReaction. by repeat case_match. Qed.

Lemma onTabPress_same_core (name : option string) (s : State) :
  same_core (onTabPress name s) s.
Proof. unfold onTabPress. by repeat case_match. Qed.

Lemma diffClampReaction_quiet (p : Props) (s : State) :
  index (diffClampReaction p s) = index s ∧
  offset (diffClampReaction p s) = offset s ∧
  notifications (diffClampReaction p s) = notifications s ∧
  calculateNextOffset (diffClampReaction p s) = calculateNextOffset s.
Proof. unfold diffClampReaction. by repeat case_match. Qed.

Lemma commitReaction_accDiffClamp (p : Props) (s : State) :
  accDiffClamp (commitReaction p s) = accDiffClamp s.
Proof.
  unfold commitReaction. case_bool_decide; [|done].
  by destruct (onIndexChange p).
Qed.

Local Ltac core_of H :=
  unfold same_core; destruct H as (-> & -> & ->); done.

Lemma same_core_trans (a b c : State) :
  same_core a b → same_core b c → same_core a c.
Proof. intros (? & ? & ?) (? & ? & ?). split_and!; congruence. Qed.

Lemma recoveryEffect_same_core (names : list string) (s : State) :
  same_core (recoveryEffect names s) s.
Proof.
  unfold recoveryEffect. case_bool_decide; [|done].
  apply onTabPress_same_core.
Qed.

Lemma effects_same_core (p : Props) (s : State) :
  same_core (firstRenderEffect p (resizeEffect s)) s.
Proof.
  unfold firstRenderEffect, resizeEffect. by repeat (case_match; simpl).
Qed.

(** A render is a commit after writes that leave the offset, the
    diff-clamp accumulator and the callback log alone. *)
Lemma render_shape (p : Props) (names : list string) (width : positive)
    (newTabs : bool) (s : State) :
  ∃ s4, render p names width newTabs s = commitReaction p s4 ∧
        same_core s4 s.
Proof.
  unfold render. eexists. split; [done|].
  set (s1 := rebuild p names width s).
  assert (same_core s1 s) as H1 by done. clearbody s1.
  set (s2 := if bool_decide (width ≠ windowWidth s)
             then firstRenderEffect p (resizeEffect s1) else s1).
  assert (same_core s2 s) as H2.
  { unfold s2. case_bool_decide; [|done].
    eapply same_core_trans; [apply effects_same_core|done]. }
  clearbody s2.
  set (s3 := if newTabs || bool_decide (index s1 ≠ calculateNextOffsetInit s)
             then recoveryEffect names s2 else s2).
  assert (same_core s3 s) as H3.
  { unfold s3. destruct (newTabs || _); [|done].
    eapply same_core_trans; [apply recoveryEffect_same_core|done]. }
  clearbody s3.
  destruct (bool_decide (scrollX s1 ≠ scrollX s)
            || bool_decide (width ≠ windowWidth s)); [|done].
  eapply same_core_trans; [apply swipeReaction_same_core|done].
Qed.

(** The shapes a step can take: a commit after writes that leave the core
    alone, a write that leaves the core alone, a write of the panes
    followed by the diff-clamp reaction, or a re-render that throws. *)
Lemma step_shape (p : Props) (s : State) (e : Event) :
  (∃ s1, step p s e = Ok (commitReaction p s1) ∧ same_core s1 s) ∨
  (∃ s', step p s e = Ok s' ∧ same_core s' s) ∨
  (∃ v, e = PaneWrite v ∧
        step p s e = Ok (diffClampReaction p (set_paneValues v s))) ∨
  (∃ msg, step p s e = Throw msg).
Proof.
  destruct e as [x| | |name|i|name|height|v|name k|width|c names]; simpl.
  - left. eexists. split; [done|]. core_of (swipeReaction_same_core (set_scrollX x s)).
  - left. eexists. split; [done|]. core_of (swipeReaction_same_core (set_isSwiping true s)).
  - left. eexists. split; [done|]. core_of (swipeReaction_same_core (set_isSwiping false s)).
  - left. eexists. split; [done|]. apply onTabPress_same_core.
  - left. eexists. split; [done|]. unfold setIndex.
    destruct (truthy (isScrolling s) || isGliding s); simpl;
      [done|apply onTabPress_same_core].
  - left. eexists. split; [done|]. unfold jumpToTab.
    destruct (truthy (isScrolling s) || isGliding s); simpl;
      [done|apply onTabPress_same_core].
  - case_bool_decide as Hh.
    + left.
      destruct (render_shape p (tabNames s) (windowWidth s) false
                  (getHeaderHeight height s)) as (s4 & -> & H4).
      eexists. split; [done|].
      unfold getHeaderHeight in H4. by case_bool_decide.
    + right. left. by eexists.
  - right. right. left. by eexists.
  - right. left. by eexists.
  - left. destruct (render_shape p (tabNames s) width false s)
      as (s4 & -> & H4). by eexists.
  - destruct (init c) as [b|msg] eqn:Hi; simpl.
    + left. destruct (render_shape p names (windowWidth s) true s)
        as (s4 & -> & H4). by eexists.
    + right. right. right. by eexists.
Qed.

Lemma commitReaction_offset_NaN (p : Props) (s : State) :
  offset s = NaN → offset (commitReaction p s) = NaN.
Proof.
  intros H. unfold commitReaction. case_bool_decide; [|done].
  assert (∀ a, add a (offset s) = NaN) as HN
    by (rewrite H; by intros []).
  destruct (onIndexChange p); simpl; apply HN.
Qed.

(** X12.  Once [offset] is [NaN] (as after a commit to an index outside
    the stored scroll offsets) no event brings it back to a number. *)
Theorem offset_NaN_is_absorbing (p : Props) (es : list Event) (s s' : State) :
  offset s = NaN →
  run p s es = Ok s' →
  offset s' = NaN.
Proof.
  revert s. induction es as [|e r IH]; intros s Ho Hr; simpl in Hr.
  - by simplify_eq.
  - destruct (step p s e) as [s1|] eqn:Hs; [|done]. simpl in Hr.
    apply (IH s1); [|done].
    destruct (step_shape p s e)
      as [(s2 & H & (Ho2 & _))|[(s2 & H & (Ho2 & _))
         |[(v & _ & H)|(m & H)]]];
      rewrite H in Hs; simplify_eq.
    + apply commitReaction_offset_NaN. congruence.
    + congruence.
    + by destruct (diffClampReaction_quiet p (set_paneValues v s))
        as (_ & -> & _).
Qed.

Lemma offset_NaN_is_absorbing_witness :
  ∃ s1 s',
    step sampleProps sampleState (CallJumpToTab "Z") = Ok s1 ∧
    run sampleProps s1 sampleEvents = Ok s' ∧
    offset s' = NaN.
Proof.
  eexists _, _. split; [reflexivity|]. split; [reflexivity|].
  eapply (offset_NaN_is_absorbing sampleProps sampleEvents);
    [|reflexivity]. reflexivity.
Defined.

Lemma diffClampReaction_disabled (p : Props) (s : State) :
  diffClampEnabled p = false → diffClampReaction p s = s.
Proof. intros H. unfold diffClampReaction. by rewrite H. Qed.

(** X13.  In direct mode ([diffClampEnabled] false) no event changes the
    diff-clamp accumulator. *)
Theorem direct_mode_keeps_accDiffClamp (p : Props) (es : list Event)
    (s s' : State) :
  diffClampEnabled p = false →
  run p s es = Ok s' →
  accDiffClamp s' = accDiffClamp s.
Proof.
  intros Hd. revert s. induction es as [|e r IH]; intros s Hr; simpl in Hr.
  - by simplify_eq.
  - destruct (step p s e) as [s1|] eqn:Hs; [|done]. simpl in Hr.
    rewrite (IH s1 Hr).
    destruct (step_shape p s e)
      as [(s2 & H & (_ & Ha & _))|[(s2 & H & (_ & Ha & _))
         |[(v & _ & H)|(m & H)]]];
      rewrite H in Hs; simplify_eq.
    + by rewrite commitReaction_accDiffClamp.
    + done.
    + by rewrite diffClampReaction_disabled.
Qed.

Lemma direct_mode_keeps_accDiffClamp_witness :
  ∃ s', run sampleProps sampleState
          (PaneWrite overscrolled :: sampleEvents) = Ok s' ∧
        accDiffClamp s' = accDiffClamp sampleState.
Proof.
  eexists. split; [reflexivity|].
  apply (direct_mode_keeps_accDiffClamp sampleProps
           (PaneWrite overscrolled :: sampleEvents)); reflexivity.
Defined.

(** ** Renders that switch no pane *)

Lemma onTabPress_busy (name : option string) (s : State) :
  truthy (isScrolling s) = true ∨ isGliding s = true →
  onTabPress name s = s.
Proof.
  intros H. unfold onTabPress. destruct H as [-> | ->]; simpl; [done|].
  by destruct (truthy (isScrolling s)).
Qed.

(** In a settled state, a render that leaves the initial tab at its place
    switches no pane when the recovery has nothing to do or is refused,
    and the pager is not dragged or the width is the old one: what is left
    of it is the rebuild and the effects on the width. *)
Lemma render_quiet (p : Props) (names : list string) (width : positive)
    (newTabs : bool) (s : State) :
  calculateNextOffset s = index s →
  initialIndex p names = initialIndex p (tabNames s) →
  (Z.of_nat (length names) ≤ index s →
   truthy (isScrolling s) = true ∨ isGliding s = true) →
  isSwiping s = false ∨ width = windowWidth s →
  render p names width newTabs s =
    if bool_decide (width ≠ windowWidth s)
    then firstRenderEffect p (resizeEffect (rebuild p names width s))
    else rebuild p names width s.
Proof.
  intros Hc Hi Hrec Hsw.
  destruct (rebuild_same_initial p names width s Hi Hc)
    as (Ht1 & Hi1 & Hc1 & Hw1 & Hsw1 & Hsc1 & Hg1 & Hx1).
  unfold render.
  set (s1 := rebuild p names width s) in *. clearbody s1.
  set (s2 := if bool_decide (width ≠ windowWidth s)
             then firstRenderEffect p (resizeEffect s1) else s1).
  assert (tabNames s2 = names ∧ index s2 = index s ∧
          calculateNextOffset s2 = index s ∧ windowWidth s2 = width ∧
          isSwiping s2 = isSwiping s ∧ isScrolling s2 = isScrolling s ∧
          isGliding s2 = isGliding s ∧ scrollX s2 = scrollX s1)
    as (Ht2 & Hi2 & Hc2 & Hw2 & Hsw2 & Hsc2 & Hg2 & Hx2).
  { unfold s2. case_bool_decide; [|done].
    destruct (effects_quiet p s1) as (-> & -> & -> & -> & -> & -> & -> & ->).
    done. }
  clearbody s2.
  assert (recoveryEffect names s2 = s2) as Hrec2.
  { unfold recoveryEffect. rewrite Hi2. case_bool_decide as Hle; [|done].
    apply onTabPress_busy. rewrite Hsc2, Hg2. by apply Hrec. }
  assert ((if newTabs || bool_decide (index s1 ≠ calculateNextOffsetInit s)
           then recoveryEffect names s2 else s2) = s2) as ->
    by (rewrite Hrec2; by destruct (newTabs || _)).
  assert (swipeReaction s2 = s2 ∨
          bool_decide (scrollX s1 ≠ scrollX s)
          || bool_decide (width ≠ windowWidth s) = false) as Hswipe.
  { destruct Hsw as [Hsw|Hw].
    - left. unfold swipeReaction. by rewrite Hsw2, Hsw.
    - subst width.
      rewrite (bool_decide_eq_false_2 (windowWidth s ≠ windowWidth s))
        by (by intros []).
      rewrite orb_false_r.
      destruct Hx1 as [Hx|Hx].
      + right. rewrite Hx. by rewrite bool_decide_eq_false_2 by (by intros []).
      + left. unfold swipeReaction. destruct (isSwiping s2); [|done].
        assert (round_div (scrollX s2) (windowWidth s2) = index s2) as ->
          by (rewrite Hx2, Hw2, Hx, Hi2; apply round_div_nearest; lia).
        by rewrite bool_decide_eq_false_2 by (by intros []). }
  assert ((if bool_decide (scrollX s1 ≠ scrollX s)
              || bool_decide (width ≠ windowWidth s)
           then swipeReaction s2 else s2) = s2) as ->.
  { destruct Hswipe as [->| ->]; [by destruct (_ || _)|done]. }
  apply commitReaction_same. by rewrite Hc2, Hi2.
Qed.

(** X14.  After the first render, in a settled state whose index is an
    ordinal of the tab set, with the pager not dragged, a change of the
    window width asks the pager for the active page without animation,
    keeps the index and calls no callback; [scrollX] is built anew as
    [index * width] when that is not the initialiser of the render before
    and is kept otherwise. *)
Theorem resize_keeps_index (p : Props) (s : State) (width : positive) :
  calculateNextOffset s = index s →
  in_range s (index s) →
  isSwiping s = false →
  firstRender s = false →
  width ≠ windowWidth s →
  ∃ s',
    step p s (Resize width) = Ok s' ∧
    windowWidth s' = width ∧
    index s' = index s ∧
    notifications s' = notifications s ∧
    commands s' = commands s ++ [ScrollToIndex (index s) false] ∧
    scrollX s' =
      (if bool_decide (index s * Z.pos width ≠ scrollXInit s)
       then index s * Z.pos width
       else scrollX s).
Proof.
  intros Hc [Hpos Hlt] Hsw Hf Hw. eexists. split; [done|].
  rewrite render_quiet; try done; [|lia|by left].
  rewrite bool_decide_eq_true_2 by done.
  unfold resizeEffect, firstRenderEffect, rebuild. simpl.
  rewrite Hf. simpl. rewrite ?Hf.
  rewrite (bool_decide_eq_false_2 (initialIndex p (tabNames s) ≠ _))
    by (by intros []).
  done.
Qed.

Lemma resize_keeps_index_witness :
  ∃ s',
    step sampleProps sampleState (Resize 500) = Ok s' ∧
    windowWidth s' = 500%positive ∧
    index s' = index sampleState ∧
    notifications s' = notifications sampleState ∧
    commands s' = commands sampleState ++ [ScrollToIndex 0 false].
Proof.
  destruct (resize_keeps_index sampleProps sampleState 500)
    as (s' & H1 & H2 & H3 & H4 & H5 & _); try reflexivity.
  - unfold in_range. simpl. lia.
  - discriminate.
  - exists s'. split; [exact H1|]. split; [exact H2|]. split; [exact H3|].
    split; [exact H4|exact H5].
Defined.

(** X15.  When new children bring a tab set with no more panes than the
    index while a pane scrolls or glides, the initial tab keeping its
    place, the recovery is dropped: the tab names are replaced, no call is
    issued and the index stays beyond the tab set. *)
Theorem recovery_skipped_while_scrolling (p : Props) (s : State)
    (children' : list Child) (names : list string) :
  init children' = Ok true →
  calculateNextOffset s = index s →
  initialIndex p names = initialIndex p (tabNames s) →
  Z.of_nat (length names) ≤ index s →
  truthy (isScrolling s) = true ∨ isGliding s = true →
  ∃ s',
    step p s (Rerender children' names) = Ok s' ∧
    tabNames s' = names ∧
    index s' = index s ∧
    ¬ in_range s' (index s') ∧
    notifications s' = notifications s ∧
    commands s' = commands s.
Proof.
  intros Hi Hc Hii Hlen Hbusy. simpl. rewrite Hi. simpl.
  eexists. split; [done|].
  rewrite render_quiet; try done; [|by right].
  rewrite bool_decide_eq_false_2 by (by intros []).
  unfold in_range, rebuild. simpl.
  rewrite (bool_decide_eq_false_2 (initialIndex p names ≠ _))
    by (by intros []).
  split_and!; try done. lia.
Qed.

Lemma recovery_skipped_while_scrolling_witness :
  ∃ s',
    step sampleProps glidingAtSecond (Rerender [Element] ["A"%string]) = Ok s' ∧
    tabNames s' = ["A"%string] ∧
    index s' = 1 ∧
    ¬ in_range s' (index s').
Proof.
  destruct (recovery_skipped_while_scrolling sampleProps glidingAtSecond
              [Element] ["A"%string])
    as (s' & H1 & H2 & H3 & H4 & _); try reflexivity.
  - right. reflexivity.
  - exists s'. split; [exact H1|]. split; [exact H2|]. split; [exact H3|].
    exact H4.
Defined.

(** ** Commands that are accepted *)

Lemma findIndex_from_found {A : Type} (q : A → bool) (a : list A) (k : Z) :
  Exists (λ x, q x = true) a →
  ∃ n x, findIndex_from q a k = k + Z.of_nat n ∧
         a !! n = Some x ∧ q x = true.
Proof.
  intros H. revert k. induction H as [x r Hx|x r _ IH]; intros k; simpl.
  - exists 0%nat, x. rewrite Hx. split_and!; [lia|done..].
  - destruct (q x) eqn:Hq.
    + exists 0%nat, x. split_and!; [lia|done..].
    + destruct (IH (k + 1)) as (n & y & Hf & Hl & Hy).
      exists (S n), y. split_and!; [lia|done..].
Qed.

Lemma findIndex_member_lookup (name : string) (names : list string) :
  name ∈ names →
  0 ≤ findIndex (same_name (Some name)) names ∧
  at_ names (findIndex (same_name (Some name)) names) = Some name.
Proof.
  intros H.
  destruct (findIndex_from_found (same_name (Some name)) names 0)
    as (n & x & Hf & Hl & Hx).
  { apply Exists_exists. exists name. split; [done|].
    unfold same_name. by rewrite bool_decide_eq_true. }
  unfold findIndex. rewrite Hf. split; [lia|].
  apply at_Some. split; [lia|].
  replace (Z.to_nat (0 + Z.of_nat n)) with n by lia.
  unfold same_name in Hx. apply bool_decide_eq_true in Hx. by simplify_eq.
Qed.

Lemma at_out_of_range {A : Type} (a : list A) (i : Z) :
  ¬ (0 ≤ i < Z.of_nat (length a)) → at_ a i = None.
Proof.
  intros H. unfold at_. case_bool_decide; [done|].
  apply lookup_ge_None_2. lia.
Qed.

Lemma idle_accepts (s : State) :
  idle s → truthy (isScrolling s) || isGliding s = false.
Proof. by intros [-> ->]. Qed.

(** X16.  With no pane scrolling or gliding, [jumpToTab] with the name of
    a tab returns [true], and once the commit has run [getFocusedTab]
    returns that name and [getCurrentIndex] an ordinal of the tab set. *)
Theorem jumpToTab_round_trip (p : Props) (s : State) (name : string) :
  name ∈ tabNames s →
  idle s →
  (jumpToTab name s).1 = true ∧
  getFocusedTab (commitReaction p (jumpToTab name s).2) = Some name ∧
  in_range (commitReaction p (jumpToTab name s).2)
    (getCurrentIndex (commitReaction p (jumpToTab name s).2)).
Proof.
  intros Hin Hidle. unfold jumpToTab. rewrite (idle_accepts s Hidle). simpl.
  destruct Hidle as [Hs Hg].
  unfold getFocusedTab, getCurrentIndex, in_range.
  rewrite commitReaction_index, commitReaction_tabNames.
  rewrite onTabPress_accepted by done.
  destruct (onTabPress_pending (Some name) s) as (-> & _).
  destruct (findIndex_member_lookup name (tabNames s) Hin) as [_ Hl].
  split; [done|]. split; [done|]. by apply findIndex_member.
Qed.

Lemma jumpToTab_round_trip_witness :
  (jumpToTab "B" sampleState).1 = true ∧
  getFocusedTab (commitReaction sampleProps (jumpToTab "B" sampleState).2)
    = Some "B"%string ∧
  in_range (commitReaction sampleProps (jumpToTab "B" sampleState).2)
    (getCurrentIndex (commitReaction sampleProps (jumpToTab "B" sampleState).2)).
Proof.
  apply (jumpToTab_round_trip sampleProps sampleState "B").
  - apply (bool_decide_unpack _). exact I.
  - split; reflexivity.
Defined.

(** X17.  With distinct tab names and no pane scrolling or gliding,
    [setIndex i] for an ordinal [i] of the tab set returns [true], and once
    the commit has run [getCurrentIndex] returns [i] and [getFocusedTab]
    the name of tab [i]. *)
Theorem setIndex_round_trip (p : Props) (s : State) (i : Z) :
  NoDup (tabNames s) →
  in_range s i →
  idle s →
  (setIndex i s).1 = true ∧
  getCurrentIndex (commitReaction p (setIndex i s).2) = i ∧
  getFocusedTab (commitReaction p (setIndex i s).2) = at_ (tabNames s) i.
Proof.
  intros ND Hr Hidle. unfold setIndex. rewrite (idle_accepts s Hidle). simpl.
  destruct Hidle as [Hs Hg].
  destruct (at_in_range (tabNames s) i Hr) as [name Hn]. rewrite Hn.
  unfold getFocusedTab, getCurrentIndex.
  rewrite commitReaction_index, commitReaction_tabNames.
  rewrite onTabPress_accepted by done.
  destruct (onTabPress_pending (Some name) s) as (-> & _).
  assert (findIndex (same_name (Some name)) (tabNames s) = i) as ->.
  { pose proof Hn as Hn'. apply at_Some in Hn' as [Hpos Hl].
    rewrite (findIndex_NoDup _ _ _ ND Hl). lia. }
  done.
Qed.

Lemma setIndex_round_trip_witness :
  (setIndex 1 sampleState).1 = true ∧
  getCurrentIndex (commitReaction sampleProps (setIndex 1 sampleState).2) = 1 ∧
  getFocusedTab (commitReaction sampleProps (setIndex 1 sampleState).2)
    = at_ (tabNames sampleState) 1.
Proof.
  apply (setIndex_round_trip sampleProps sampleState 1).
  - apply (bool_decide_unpack _). exact I.
  - unfold in_range. simpl. lia.
  - split; reflexivity.
Defined.

(** X18.  With no pane scrolling or gliding, [setIndex] with an index that
    is no ordinal of the tab set is not refused: it returns [true] and the
    commit leaves the index at -1, with no focused tab. *)
Theorem setIndex_out_of_range (p : Props) (s : State) (i : Z) :
  ¬ in_range s i →
  idle s →
  (setIndex i s).1 = true ∧
  getCurrentIndex (commitReaction p (setIndex i s).2) = -1 ∧
  getFocusedTab (commitReaction p (setIndex i s).2) = None.
Proof.
  intros Hr Hidle. unfold setIndex. rewrite (idle_accepts s Hidle). simpl.
  destruct Hidle as [Hs Hg].
  rewrite (at_out_of_range (tabNames s) i Hr).
  unfold getFocusedTab, getCurrentIndex.
  rewrite commitReaction_index, commitReaction_tabNames.
  rewrite onTabPress_accepted by done.
  rewrite findIndex_undefined. split; [done|]. split; [done|].
  by apply at_negative.
Qed.

Lemma setIndex_out_of_range_witness :
  (setIndex 2 sampleState).1 = true ∧
  getCurrentIndex (commitReaction sampleProps (setIndex 2 sampleState).2) = -1 ∧
  getFocusedTab (commitReaction sampleProps (setIndex 2 sampleState).2) = None.
Proof.
  apply (setIndex_out_of_range sampleProps sampleState 2).
  - unfold in_range. simpl. lia.
  - split; reflexivity.
Defined.

(** X19.  With no pane scrolling or gliding, a press on a tab other than
    the focused one issues one call, [scrollToIndex] with the tab's index
    and animation, and no scroll-to-top; the commit moves the index to
    that tab and the callback, when there is one, gets one payload from
    the focused tab to the pressed one. *)
Theorem tab_press_other_tab (p : Props) (s : State) (name : string) :
  name ∈ tabNames s →
  focusedTab s ≠ Some name →
  idle s →
  ∃ k,
    at_ (tabNames s) k = Some name ∧
    k ≠ index s ∧
    commands (commitReaction p (onTabPress (Some name) s)) =
      commands s ++ [ScrollToIndex k true] ∧
    index (commitReaction p (onTabPress (Some name) s)) = k ∧
    notifications (commitReaction p (onTabPress (Some name) s)) =
      notifications s ++
        (if onIndexChange p
         then [IndexChange.mk (index s) k (focusedTab s) (Some name)]
         else []).
Proof.
  intros Hin Hf [Hs Hg].
  destruct (findIndex_member_lookup name (tabNames s) Hin) as [_ Hl].
  set (k := findIndex (same_name (Some name)) (tabNames s)) in *.
  assert (k ≠ index s) as Hk
    by (intros He; apply Hf; unfold focusedTab; by rewrite <- He).
  assert (onTabPress (Some name) s =
          issue (ScrollToIndex k true) (set_calculateNextOffset k s)) as ->.
  { unfold onTabPress. rewrite Hs, Hg. simpl.
    by rewrite bool_decide_eq_false_2 by done. }
  exists k. split; [done|]. split; [done|].
  unfold commitReaction. simpl. rewrite bool_decide_eq_true_2 by done.
  unfold focusedTab. rewrite Hl.
  destruct (onIndexChange p); simpl; rewrite ?app_nil_r; done.
Qed.

Lemma tab_press_other_tab_witness :
  ∃ k,
    at_ (tabNames mountedState) k = Some "B"%string ∧
    k ≠ index mountedState ∧
    commands (commitReaction sampleProps
                (onTabPress (Some "B"%string) mountedState)) =
      commands mountedState ++ [ScrollToIndex k true] ∧
    index (commitReaction sampleProps
             (onTabPress (Some "B"%string) mountedState)) = k ∧
    notifications (commitReaction sampleProps
                     (onTabPress (Some "B"%string) mountedState)) =
      notifications mountedState ++
        (if onIndexChange sampleProps
         then [IndexChange.mk (index mountedState) k
                 (focusedTab mountedState) (Some "B"%string)]
         else []).
Proof.
  apply (tab_press_other_tab sampleProps mountedState "B").
  - apply (bool_decide_unpack _). exact I.
  - discriminate.
  - split; reflexivity.
Defined.

(** ** The header translation, again *)

(** X20.  With a scroll offset that is not negative and a diff-clamp
    accumulator inside [0, headerScrollDistance], the header is translated
    upwards by at most the scroll distance and never downwards, in either
    mode. *)
Theorem translateY_bounds (p : Props) (s : State) (y a : Z) :
  scrollYCurrent s = Num y →
  accDiffClamp s = Num a →
  0 ≤ y →
  0 ≤ a ≤ headerScrollDistance p s →
  ∃ t, translateY p s = Num t ∧ - headerScrollDistance p s ≤ t ≤ 0.
Proof.
  intros Hy Ha Hpos Hb. unfold translateY. rewrite Hy, Ha.
  destruct (diffClampEnabled p); simpl; eexists; (split; [done|lia]).
Qed.

Lemma translateY_bounds_witness :
  ∃ t, translateY sampleProps sampleState = Num t ∧
       - headerScrollDistance sampleProps sampleState ≤ t ≤ 0.
Proof.
  apply (translateY_bounds sampleProps sampleState 120 0);
    try reflexivity; unfold headerScrollDistance; simpl; lia.
Defined.

(** X21.  In direct mode the header moves up as the pane scrolls down and
    stops at the scroll distance: a larger scroll offset never gives a
    larger translation, and from the scroll distance on the translation is
    minus the scroll distance. *)
Theorem direct_translation_monotone (p : Props) (s1 s2 : State) (y1 y2 : Z) :
  diffClampEnabled p = false →
  headerHeight s1 = headerHeight s2 →
  scrollYCurrent s1 = Num y1 →
  scrollYCurrent s2 = Num y2 →
  y1 ≤ y2 →
  ∃ t1 t2,
    translateY p s1 = Num t1 ∧
    translateY p s2 = Num t2 ∧
    t2 ≤ t1 ∧
    (headerScrollDistance p s1 ≤ y1 →
     t1 = - headerScrollDistance p s1 ∧ t2 = t1).
Proof.
  intros Hd Hh Hy1 Hy2 Hle. unfold translateY.
  rewrite Hd, Hy1, Hy2. simpl.
  assert (headerScrollDistance p s2 = headerScrollDistance p s1) as ->
    by (unfold headerScrollDistance; by rewrite Hh).
  eexists _, _. split; [done|]. split; [done|]. lia.
Qed.

Lemma direct_translation_monotone_witness :
  ∃ t1 t2,
    translateY sampleProps sampleState = Num t1 ∧
    translateY sampleProps (set_paneValues
                              (mkPaneValues (Num 1) false (Num 130)
                                 [Num 130; Num 40] (Num 130) (Num 120))
                              sampleState) = Num t2 ∧
    t2 ≤ t1 ∧ t1 = -100 ∧ t2 = t1.
Proof.
  destruct (direct_translation_monotone sampleProps sampleState
              (set_paneValues
                 (mkPaneValues (Num 1) false (Num 130) [Num 130; Num 40]
                    (Num 130) (Num 120)) sampleState) 120 130)
    as (t1 & t2 & H1 & H2 & Hle & Hsat); try reflexivity; [lia|].
  exists t1, t2. split; [exact H1|]. split; [exact H2|]. split; [exact Hle|].
  apply Hsat. unfold headerScrollDistance. simpl. lia.
Defined.

(** X22.  In diff-clamp mode the accumulator follows the direction of the
    scroll: a scroll down leaves it at most at the scroll distance, and not
    below its old value when that was within the distance; a scroll up
    leaves it at least at 0, and not above its old value when that was not
    negative; equal accumulators leave it alone. *)
Theorem diffClamp_follows_direction (p : Props) (s : State) (v old new : Z) :
  diffClampEnabled p = true →
  accDiffClamp s = Num v →
  ∃ v',
    accDiffClamp (diffClampReaction p (set_accScrollY (Num old) (Num new) s))
      = Num v' ∧
    (old < new →
     v' ≤ headerScrollDistance p s ∧
     (v ≤ headerScrollDistance p s → v ≤ v')) ∧
    (new < old → 0 ≤ v' ∧ (0 ≤ v → v' ≤ v)) ∧
    (new = old → v' = v).
Proof.
  intros Hd Hv. unfold diffClampReaction.
  change (headerScrollDistance p (set_accScrollY (Num old) (Num new) s))
    with (headerScrollDistance p s).
  rewrite Hd. simpl. rewrite Hv.
  repeat case_bool_decide; simpl; rewrite ?Hv; eexists; (split; [done|]); lia.
Qed.

Lemma diffClamp_follows_direction_witness :
  ∃ v',
    accDiffClamp (diffClampReaction diffClampProps
                    (set_accScrollY (Num 120) (Num 190) sampleState))
      = Num v' ∧
    v' ≤ headerScrollDistance diffClampProps sampleState ∧ 0 ≤ v'.
Proof.
  destruct (diffClamp_follows_direction diffClampProps sampleState 0 120 190
              eq_refl eq_refl) as (v' & Hv & Hdown & _ & _).
  exists v'. split; [exact Hv|].
  destruct Hdown as [Hle Hge]; [lia|]. split; [exact Hle|].
  apply Hge. unfold headerScrollDistance. simpl. lia.
Defined.

(** ** The pager's opacity *)

Lemma opacity0_not_opacity1 : opacity0 ≠ opacity1.
Proof. intros H. apply (f_equal Qcanon.this) in H. discriminate H. Qed.

(** X23.  The pager starts with opacity 0 or 1; it starts hidden exactly
    when no header height was given or the initial index is not 0, and in
    that case the fade-in fires as soon as a header height is known, while
    it never fires before. *)
Theorem pager_fades_in (p : Props) (tabNamesArray : list string) :
  (initialPagerOpacity p (initialIndex p tabNamesArray) = opacity0 ↔
   initialHeaderHeight p = None ∨ initialIndex p tabNamesArray ≠ 0) ∧
  (initialPagerOpacity p (initialIndex p tabNamesArray) = opacity1 ↔
   initialHeaderHeight p ≠ None ∧ initialIndex p tabNamesArray = 0) ∧
  (initialPagerOpacity p (initialIndex p tabNamesArray) = opacity0 →
   ∀ h, fadeInPager p (Some h)
          (initialPagerOpacity p (initialIndex p tabNamesArray)) = true) ∧
  (∀ o, fadeInPager p None o = false).
Proof.
  pose proof opacity0_not_opacity1 as Hne.
  assert (initialIndex p tabNamesArray ≠ 0 → initialTabName p ≠ None) as Hname.
  { unfold initialIndex. intros Hi Hn. rewrite Hn in Hi. by apply Hi. }
  unfold initialPagerOpacity, fadeInPager.
  destruct (initialHeaderHeight p) as [h0|];
    destruct (decide (initialIndex p tabNamesArray = 0)) as [Hz|Hnz].
  - rewrite (bool_decide_eq_false_2 (Some h0 = None)) by done.
    rewrite (bool_decide_eq_false_2 (initialIndex p tabNamesArray ≠ 0))
      by (by intros []).
    simpl. split_and!.
    + split; [by intros Ho; symmetry in Ho|by intros [?|?]].
    + done.
    + by intros Ho; symmetry in Ho.
    + intros o. simpl. rewrite ?andb_false_r. done.
  - rewrite (bool_decide_eq_false_2 (Some h0 = None)) by done.
    rewrite (bool_decide_eq_true_2 (initialIndex p tabNamesArray ≠ 0)) by done.
    simpl. split_and!.
    + split; [by right|done].
    + split; [done|by intros [_ ?]].
    + intros _ h. rewrite (bool_decide_eq_true_2 (initialTabName p ≠ None))
        by (by apply Hname).
      simpl. rewrite ?bool_decide_eq_true_2 by done. done.
    + intros o. simpl. rewrite ?andb_false_r. done.
  - rewrite (bool_decide_eq_true_2 (None = None)) by done.
    simpl. split_and!.
    + split; [by left|done].
    + split; [done|by intros [? _]].
    + intros _ h. simpl. rewrite ?bool_decide_eq_true_2 by done. done.
    + intros o. simpl. rewrite ?andb_false_r. done.
  - rewrite (bool_decide_eq_true_2 (None = None)) by done.
    simpl. split_and!.
    + split; [by left|done].
    + split; [done|by intros [? _]].
    + intros _ h. simpl. rewrite ?bool_decide_eq_true_2 by done. done.
    + intros o. simpl. rewrite ?andb_false_r. done.
Qed.

Lemma pager_fades_in_witness :
  initialPagerOpacity strayNameProps
    (initialIndex strayNameProps ["A"; "B"]%string) = opacity0 ∧
  fadeInPager strayNameProps (Some 150)
    (initialPagerOpacity strayNameProps
       (initialIndex strayNameProps ["A"; "B"]%string)) = true.
Proof.
  destruct (pager_fades_in strayNameProps ["A"; "B"]%string)
    as (H0 & _ & Hf & _).
  assert (initialPagerOpacity strayNameProps
            (initialIndex strayNameProps ["A"; "B"]%string) = opacity0) as Hz.
  { apply H0. right. discriminate. }
  split; [exact Hz|]. apply (Hf Hz 150).
Defined.
